(** * The QSYS member filesystem provider of vscode-ibmi

    A shallow embedding of [src/filesystems/qsys/QSysFs.ts]: the URI codec
    ([getUriFromPath], [parseFSOptions], [getFilePermission]) and the
    [QSysFS] provider ([stat], [readFile], [writeFile], [rename], ...)
    together with its stat cache and source-date state.

    Asynchronous methods are embedded as sequential computations: a call
    runs from its first statement to its result, and whatever the remote
    side answers at an [await] is read from the [World] the call runs in. *)

From stdpp Require Import gmap strings list.
From Equations Require Import Equations.
From Stdlib Require Import Strings.Ascii Strings.String Strings.Byte.

Open Scope string_scope.

(** ** JavaScript strings *)

Module JsString.

(** [s.split(sep)] for a one-character separator: always at least one
    piece, and one more piece than there are separators in [s]. *)
Fixpoint split (sep : ascii) (s : string) : list string :=
  match s with
  | EmptyString => [EmptyString]
  | String c rest =>
      if Ascii.eqb c sep then EmptyString :: split sep rest
      else match split sep rest with
           | piece :: pieces => String c piece :: pieces
           | [] => [String c EmptyString]
           end
  end.

(** [s.startsWith(c)] for a one-character prefix. *)
Definition startsWith (c : ascii) (s : string) : bool :=
  match s with
  | String c' _ => Ascii.eqb c' c
  | EmptyString => false
  end.

(** Number of occurrences of [c] in [s]. *)
Fixpoint occurrences (c : ascii) (s : string) : nat :=
  match s with
  | EmptyString => 0
  | String c' rest => (if Ascii.eqb c' c then 1 else 0) + occurrences c rest
  end.

End JsString.

(** ** Node's [querystring] module, as far as the codec uses it *)

Module QueryString.

(** A parsed parameter: one string, or an array when the key repeats. *)
Inductive value :=
| Str (s : string)
| Arr (l : list string).

#[global] Instance value_eq_dec : EqDecision value.
Proof. solve_decision. Defined.

Definition hexDigit (c : ascii) : option N :=
  let n := N_of_ascii c in
  if ((48 <=? n) && (n <=? 57))%N then Some (n - 48)%N
  else if ((65 <=? n) && (n <=? 70))%N then Some (n - 55)%N
  else if ((97 <=? n) && (n <=? 102))%N then Some (n - 87)%N
  else None.

(** [querystring.unescape] on bytes: [+] is a space, [%XY] the byte with
    hexadecimal code [XY], anything else stands for itself. *)
Fixpoint unescape (s : string) : string :=
  match s with
  | EmptyString => EmptyString
  | String "+" rest => String " " (unescape rest)
  | String "%" (String a (String b rest) as tail) =>
      match hexDigit a, hexDigit b with
      | Some h, Some l => String (ascii_of_N (16 * h + l)) (unescape rest)
      | _, _ => String "%" (unescape tail)
      end
  | String c rest => String c (unescape rest)
  end.

(** Cuts a [key=value] piece at its first [=]; a piece without [=] is a
    key with the empty value. *)
Fixpoint cut (piece : string) : string * string :=
  match piece with
  | EmptyString => (EmptyString, EmptyString)
  | String "=" rest => (EmptyString, rest)
  | String c rest => let '(k, v) := cut rest in (String c k, v)
  end.

Definition addKeyValue (obj : gmap string value) (kv : string * string)
  : gmap string value :=
  let key := unescape kv.1 in
  let val := unescape kv.2 in
  match obj !! key with
  | None => <[key := Str val]> obj
  | Some (Str cur) => <[key := Arr [cur; val]]> obj
  | Some (Arr cur) => <[key := Arr (cur ++ [val])]> obj
  end.

Definition maxKeys : nat := 1000.

Definition nonEmpty (s : string) : bool :=
  match s with EmptyString => false | _ => true end.

(** The pieces of a query string between [&] that [parse] reads, each cut
    into raw key and raw value: empty pieces are skipped, and at most
    [maxKeys] pieces are read. *)
Definition pairs (qs : string) : list (string * string) :=
  cut <$> filter (fun p => nonEmpty p = true) (take maxKeys (JsString.split "&" qs)).

(** [querystring.parse(qs)]. *)
Definition parse (qs : string) : gmap string value :=
  foldl addKeyValue ∅ (pairs qs).

(** A primitive that [stringify] serialises. *)
Definition stringifyBool (b : bool) : string :=
  if b then "true" else "false".

End QueryString.

(** ** Resource identifiers and options *)

(** [vscode.Uri], reduced to the three components the provider sets and
    reads. *)
Record Uri := mkUri {
  scheme : string;
  path : string;
  query : string;
}.

#[global] Instance Uri_eq_dec : EqDecision Uri.
Proof. solve_decision. Defined.

(** Modelled from the spec: the [QsysFsOptions] type of [typings], whose
    declaration is outside this development; the data model gives it as
    [{readonly: boolean}]. *)
Record QsysFsOptions := mkOptions {
  readonly : bool;
}.

(** [IBMiMember], the fields [getMemberUri] reads. *)
Record IBMiMember := mkMember {
  member_asp : option string;
  member_library : string;
  member_file : string;
  member_name : string;
  member_extension : string;
}.

(** [stringify(options as ParsedUrlQueryInput)]: one [readonly=...] pair
    for an options record, the empty string for [undefined]. *)
Definition stringify (options : option QsysFsOptions) : string :=
  match options with
  | Some o => "readonly=" ++ QueryString.stringifyBool (readonly o)
  | None => EmptyString
  end.

Definition getUriFromPath (p : string) (options : option QsysFsOptions) : Uri :=
  let query := stringify options in
  if JsString.startsWith "/" p then
    (* IFS path *)
    {| scheme := "streamfile"; path := p; query := query |}
  else
    (* QSYS path *)
    {| scheme := "member"; path := "/" ++ p; query := query |}.

Definition getMemberUri (member : IBMiMember) (options : option QsysFsOptions) : Uri :=
  getUriFromPath
    ((match member_asp member with
      | Some asp => if QueryString.nonEmpty asp then asp ++ "/" else EmptyString
      | None => EmptyString
      end)
     ++ member_library member ++ "/" ++ member_file member ++ "/"
     ++ member_name member ++ "." ++ member_extension member)
    options.

Definition parseFSOptions (uri : Uri) : QsysFsOptions :=
  let parameters := QueryString.parse (query uri) in
  {| readonly := bool_decide (parameters !! "readonly" = Some (QueryString.Str "true")) |}.

(** ** What the provider imports *)

(** Functions the provider imports from modules outside this development
    ([Tools.parseAttrDate], [Tools.parseQSysPath]) and the JavaScript
    conversions it applies ([Number], template interpolation of a [Uri],
    [Buffer.from(_, "utf8")], [Uint8Array.toString]): parameters of the
    development. [number] is the type of JavaScript numbers, [zero] the
    literal [0]. *)
Class Host := {
  number : Type;
  zero : number;
  Number : string -> number;
  parseAttrDate : string -> number;
  QsysPath : Type;
  parseQSysPath : string -> QsysPath;
  Uri_toString : Uri -> string;
  Buffer_from_utf8 : string -> list byte;
  Uint8Array_toString : list byte -> string;
}.

(** What a call can throw: [FileSystemError.FileNotFound(uri)] or
    [new Error(message)]. *)
Inductive Exception :=
| FileNotFound (uri : Uri)
| Error (message : string).

(** How a call ends. *)
Inductive Outcome (A : Type) :=
| Returns (a : A)
| Throws (e : Exception).
Arguments Returns {A} a.
Arguments Throws {A} e.

Inductive FileType := File | Directory.
Inductive FilePermission := Readonly.
Inductive SourceDateMode := edit | diff.

(** Lifecycle events of [instance.onEvent]. *)
Inductive InstanceEvent := connected | disconnected.

Section Provider.
Context `{Host}.

(** [vscode.FileStat]. *)
Record FileStat := mkFileStat {
  ctime : number;
  mtime : number;
  size : number;
  type : FileType;
  permissions : option FilePermission;
}.

(** The record [getAttributes] answers with, read through [String(_)]. *)
Record Attributes := mkAttributes {
  CREATE_TIME : string;
  MODIFY_TIME : string;
  DATA_SIZE : string;
}.

(** What [connection.parserMemberPath] returns, as far as it is read. *)
Record MemberPath := mkMemberPath {
  asp : option string;
  library : string;
  file : string;
  name : string;
}.

Record ConnectionConfig := mkConfig {
  enableSourceDates : bool;
  sourceDateMode : SourceDateMode;
  readOnlyMode : bool;
}.

Record Encoding := mkEncoding {
  invalid : bool;
}.

(** The connection object [instance.getConnection()]. *)
Record IBMi := mkIBMi {
  config : option ConnectionConfig;
  sqlRunnerAvailable : bool;
  getEncoding : Encoding;
  parserMemberPath : string -> MemberPath;
}.

(** The Remote Content Gateway [instance.getContent()]: what each remote
    call answers. *)
Record IBMiContent := mkContent {
  getAttributes : QsysPath -> Outcome (option Attributes);
  downloadMemberContent :
    option string -> string -> string -> string -> Outcome (option string);
  uploadMemberContent :
    option string -> string -> string -> string -> list byte -> Outcome unit;
}.

(** The transfers of [ExtendedIBMiContent], which carry source dates. *)
Record ExtendedIBMiContent := mkExtended {
  downloadMemberContentWithDates :
    option string -> string -> string -> string -> Outcome (option string);
  uploadMemberContentWithDates :
    option string -> string -> string -> string -> string -> Outcome unit;
}.

(** The global accessor [instance]. *)
Record Instance := mkInstance {
  getConnection : option IBMi;
  getContent : option IBMiContent;
  getConfig : option ConnectionConfig;
}.

(** Everything outside the provider that a call reads: the global
    accessor and what the with-dates transfers answer. *)
Record World := mkWorld {
  instance : Instance;
  extendedContent : ExtendedIBMiContent;
}.

(** What running [code-for-ibmi.connectToPrevious] does to the process:
    the lifecycle events it fires (each with the [instance] its handler
    sees) and the world it leaves behind. *)
Record Reconnection := mkReconnection {
  fired : list (Instance * InstanceEvent);
  reconnected : World;
}.

(** Calls that leave the provider, in the order they are made. *)
Inductive Effect :=
| GetAttributes (p : QsysPath) (fields : list string)
| DownloadMemberContent (asp : option string) (library file member : string)
| DownloadMemberContentWithDates (asp : option string) (library file member : string)
| UploadMemberContent (asp : option string) (library file member : string)
    (content : list byte)
| UploadMemberContentWithDates (asp : option string) (library file member : string)
    (content : string)
| ShowWarningMessage (message : string)
| ShowErrorMessage (message : string)
| ExecuteCommand (command : string)
| ConsoleLog (oldUri newUri : Uri) (overwrite : bool).

(** ** The stat cache *)

Abbreviation FileStatCache := (gmap string (option FileStat)).

(** Modelled from the spec: the [FileStatCache] class of
    [filesystems/fileStatCache], whose source is outside this development.
    A map keyed by the canonical path string; a key bound to [None] is the
    negative-cache marker ([null]), an unbound key has never been queried.
    A [Uri] given as key stands for its path. *)
Definition toPath (uri : Uri + string) : string :=
  match uri with
  | inl u => path u
  | inr p => p
  end.

(** Modelled from the spec: [get(path) -> Metadata | Absent-marker |
    not-found]. *)
Definition FileStatCache_get (uri : Uri + string) (cache : FileStatCache)
  : option (option FileStat) :=
  cache !! toPath uri.

(** Modelled from the spec: [set(path, Metadata | null)]. *)
Definition FileStatCache_set (uri : Uri + string) (stat : option FileStat)
    (cache : FileStatCache) : FileStatCache :=
  <[toPath uri := stat]> cache.

(** Modelled from the spec: [clear(path?)] clears one entry or, if no
    path is given, all entries. *)
Definition FileStatCache_clear (uri : option (Uri + string))
    (cache : FileStatCache) : FileStatCache :=
  match uri with
  | Some u => delete (toPath u) cache
  | None => ∅
  end.

(** ** Provider state *)

(** Modelled from the spec: the state of [SourceDateHandler], whose source
    is outside this development: [{enabled: bool, mode: enum}]. *)
Record SourceDateHandler := mkHandler {
  enabled : bool;
  mode : SourceDateMode;
}.

(** The mutable fields of a [QSysFS] object. *)
Record QSysFS := mkQSysFS {
  statCache : FileStatCache;
  sourceDateHandler : SourceDateHandler;
  extendedMemberSupport : bool;
}.

(** A fresh provider, as the constructor leaves its fields. The handler
    starts disabled in edit mode. *)
Definition new_QSysFS : QSysFS :=
  {| statCache := ∅;
     sourceDateHandler := {| enabled := false; mode := edit |};
     extendedMemberSupport := false |}.

(** ** Method bodies: state, effects and exceptions *)

(** What a run of a method leaves: how it ended, the provider's fields
    afterwards, and the calls it made. *)
Record Run (A : Type) := mkRun {
  outcome : Outcome A;
  after : QSysFS;
  effects : list Effect;
}.
Arguments mkRun {A}.
Arguments outcome {A}.
Arguments after {A}.
Arguments effects {A}.

Definition M (A : Type) : Type := QSysFS -> Run A.

Definition ret {A} (a : A) : M A :=
  fun this => mkRun (Returns a) this [].

Definition bind {A B} (m : M A) (k : A -> M B) : M B :=
  fun this =>
    let r := m this in
    match outcome r with
    | Returns a =>
        let r' := k a (after r) in
        mkRun (outcome r') (after r') (effects r ++ effects r')
    | Throws e => mkRun (Throws e) (after r) (effects r)
    end.

Definition throw {A} (e : Exception) : M A :=
  fun this => mkRun (Throws e) this [].

(** A call that leaves the provider and comes back with [answer]. *)
Definition call {A} (ev : Effect) (answer : Outcome A) : M A :=
  fun this => mkRun answer this [ev].

Definition read {A} (field : QSysFS -> A) : M A :=
  fun this => mkRun (Returns (field this)) this [].

Definition update (f : QSysFS -> QSysFS) : M unit :=
  fun this => mkRun (Returns tt) (f this) [].

Notation "x <- m ;; k" := (bind m (fun x => k))
  (at level 60, m at next level, right associativity).
Notation "m ;;; k" := (bind m (fun _ => k))
  (at level 60, right associativity).

Definition set_statCache (f : FileStatCache -> FileStatCache) (this : QSysFS) : QSysFS :=
  {| statCache := f (statCache this);
     sourceDateHandler := sourceDateHandler this;
     extendedMemberSupport := extendedMemberSupport this |}.

Definition set_extendedMemberSupport (b : bool) (this : QSysFS) : QSysFS :=
  {| statCache := statCache this;
     sourceDateHandler := sourceDateHandler this;
     extendedMemberSupport := b |}.

Definition set_sourceDateHandler (f : SourceDateHandler -> SourceDateHandler)
    (this : QSysFS) : QSysFS :=
  {| statCache := statCache this;
     sourceDateHandler := f (sourceDateHandler this);
     extendedMemberSupport := extendedMemberSupport this |}.

(** Modelled from the spec: [changeSourceDateMode] and [setEnabled] of
    [SourceDateHandler] set the [mode] and the [enabled] field. *)
Definition changeSourceDateMode (m : SourceDateMode) (h : SourceDateHandler)
  : SourceDateHandler :=
  {| enabled := enabled h; mode := m |}.

Definition setEnabled (b : bool) (h : SourceDateHandler) : SourceDateHandler :=
  {| enabled := b; mode := mode h |}.

(** ** [getFilePermission] *)

Definition getFilePermission (inst : Instance) (uri : Uri) : option FilePermission :=
  let fsOptions := parseFSOptions uri in
  if match getConfig inst with
     | Some cfg => readOnlyMode cfg
     | None => false
     end || readonly fsOptions
  then Some Readonly
  else None.

(** ** The [QSysFS] methods *)

Definition ccsidWarning : string :=
  "Source date support is enabled, but CCSID is 65535. If you encounter problems with source date support, please disable it in the settings.".

Definition noSqlError : string :=
  "Source date support is enabled, but the remote system does not support SQL. Source date support will be disabled.".

Definition updateMemberSupport (inst : Instance) : M unit :=
  update (set_extendedMemberSupport false) ;;;
  let connection := getConnection inst in
  let config := connection ≫= config in
  match connection, config with
  | Some connection, Some config =>
      if enableSourceDates config then
        if sqlRunnerAvailable connection then
          update (set_extendedMemberSupport true) ;;;
          update (set_sourceDateHandler (changeSourceDateMode (sourceDateMode config))) ;;;
          let ccsidDetail := getEncoding connection in
          if invalid ccsidDetail then
            call (ShowWarningMessage ccsidWarning) (Returns tt)
          else ret tt
        else
          call (ShowErrorMessage noSqlError) (Returns tt)
      else ret tt
  | _, _ => ret tt
  end ;;;
  support <- read extendedMemberSupport ;;
  update (set_sourceDateHandler (setEnabled support)).

(** The file type [stat] computes from the path alone. *)
Definition fileTypeOf (p : string) : FileType :=
  if (3 <? List.length (JsString.split "/" p))%nat then File else Directory.

Definition stat (w : World) (uri : Uri) : M FileStat :=
  let path := path uri in
  let type := fileTypeOf path in
  currentStat <- read (fun this => FileStatCache_get (inr path) (statCache this)) ;;
  match currentStat with
  | None =>
      currentStat <-
        match getContent (instance w) with
        | Some content =>
            attributes <-
              call (GetAttributes (parseQSysPath path)
                      ["CREATE_TIME"; "MODIFY_TIME"; "DATA_SIZE"])
                   (getAttributes content (parseQSysPath path)) ;;
            match attributes with
            | Some attributes =>
                ret {| ctime := parseAttrDate (CREATE_TIME attributes);
                       mtime := parseAttrDate (MODIFY_TIME attributes);
                       size := Number (DATA_SIZE attributes);
                       type := type;
                       permissions := getFilePermission (instance w) uri |}
            | None =>
                update (set_statCache (FileStatCache_set (inr path) None)) ;;;
                throw (FileNotFound uri)
            end
        | None =>
            ret {| ctime := zero;
                   mtime := zero;
                   size := zero;
                   type := type;
                   permissions := getFilePermission (instance w) uri |}
        end ;;
      update (set_statCache (FileStatCache_set (inr path) (Some currentStat))) ;;;
      ret currentStat
  | Some None => throw (FileNotFound uri)
  | Some (Some currentStat) => ret currentStat
  end.

Definition notConnected : string := "Not connected to IBM i".

Definition couldntRead (uri : Uri) : string :=
  "Couldn't read " ++ Uri_toString uri ++ "; check IBM i connection.".

Definition notImplemented : string := "Method not implemented.".

(** The handlers the constructor registers with [instance.onEvent]. *)
Definition onEvent (inst : Instance) (ev : InstanceEvent) : M unit :=
  match ev with
  | connected => updateMemberSupport inst
  | disconnected =>
      updateMemberSupport inst ;;;
      update (set_statCache (FileStatCache_clear None))
  end.

Fixpoint dispatch (events : list (Instance * InstanceEvent)) : M unit :=
  match events with
  | [] => ret tt
  | (inst, ev) :: rest => onEvent inst ev ;;; dispatch rest
  end.

(** What the editor's command registry does with a command. *)
Record Commands := mkCommands {
  connectToPrevious : Reconnection;
}.

(** [await vscode.commands.executeCommand(`code-for-ibmi.connectToPrevious`)]:
    the command runs, and the lifecycle events it fires reach the
    provider's handlers before the call resumes. *)
Definition executeConnectToPrevious (commands : Commands) : M unit :=
  call (ExecuteCommand "code-for-ibmi.connectToPrevious") (Returns tt) ;;;
  dispatch (fired (connectToPrevious commands)).

Equations readFile (commands : Commands) (w : World) (uri : Uri) (retrying : bool)
  : M (list byte) by wf (if retrying then 0 else 1) lt :=
readFile commands w uri retrying
  with (getConnection (instance w), getContent (instance w)) := {
  | (Some connection, Some contentApi) =>
      let parts := parserMemberPath connection (path uri) in
      support <- read extendedMemberSupport ;;
      memberContent <-
        (if support then
           call (DownloadMemberContentWithDates
                   (asp parts) (library parts) (file parts) (name parts))
                (downloadMemberContentWithDates (extendedContent w)
                   (asp parts) (library parts) (file parts) (name parts))
         else
           call (DownloadMemberContent
                   (asp parts) (library parts) (file parts) (name parts))
                (downloadMemberContent contentApi
                   (asp parts) (library parts) (file parts) (name parts))) ;;
      match memberContent with
      | Some memberContent => ret (Buffer_from_utf8 memberContent)
      | None => throw (Error (couldntRead uri))
      end
  | _ with retrying => {
    | true => throw (Error notConnected)
    | false =>
        executeConnectToPrevious commands ;;;
        readFile commands (reconnected (connectToPrevious commands)) uri true
    }
  }.

(** The [options] argument of [writeFile]. *)
Record WriteOptions := mkWriteOptions {
  create : bool;
  overwrite : bool;
}.

Definition writeFile (w : World) (uri : Uri) (content : list byte)
    (options : WriteOptions) : M unit :=
  update (set_statCache (FileStatCache_clear (Some (inl uri)))) ;;;
  let contentApi := getContent (instance w) in
  let connection := getConnection (instance w) in
  match connection, contentApi with
  | Some connection, Some contentApi =>
      let parts := parserMemberPath connection (path uri) in
      support <- read extendedMemberSupport ;;
      if support then
        call (UploadMemberContentWithDates
                (asp parts) (library parts) (file parts) (name parts)
                (Uint8Array_toString content))
             (uploadMemberContentWithDates (extendedContent w)
                (asp parts) (library parts) (file parts) (name parts)
                (Uint8Array_toString content))
      else
        call (UploadMemberContent
                (asp parts) (library parts) (file parts) (name parts) content)
             (uploadMemberContent contentApi
                (asp parts) (library parts) (file parts) (name parts) content)
  | _, _ => throw (Error notConnected)
  end.

(** [rename]; its [options] are [{overwrite}]. *)
Definition rename (oldUri newUri : Uri) (options : bool) : M unit :=
  call (ConsoleLog oldUri newUri options) (Returns tt) ;;;
  update (set_statCache (FileStatCache_clear (Some (inr (path oldUri))))) ;;;
  update (set_statCache (FileStatCache_clear (Some (inr (path newUri))))).

(** [watch] returns a disposable that does nothing. *)
Definition watch (uri : Uri) : M unit := ret tt.

Definition readDirectory (uri : Uri) : M (list (string * FileType)) :=
  throw (Error notImplemented).

Definition createDirectory (uri : Uri) : M unit :=
  throw (Error notImplemented).

Definition delete (uri : Uri) (recursive : bool) : M unit :=
  update (set_statCache (FileStatCache_clear (Some (inr (path uri))))) ;;;
  throw (Error notImplemented).

(** ** Calls on a provider *)

(** What can reach a provider once it is constructed: the editor's
    filesystem calls, and the subscriptions of the constructor (a
    configuration change, a closed document, the
    [code-for-ibmi.clearQSYSStats] command, a lifecycle event). *)
Inductive Call :=
| Stat (uri : Uri)
| ReadFile (commands : Commands) (uri : Uri)
| WriteFile (uri : Uri) (content : list byte) (options : WriteOptions)
| Rename (oldUri newUri : Uri) (options : bool)
| Delete (uri : Uri) (recursive : bool)
| ConfigurationChange
| DidCloseTextDocument (doc : Uri)
| ClearQSYSStats (uri : option (Uri + string))
| OnEvent (ev : InstanceEvent).

(** One call in a world, with its result forgotten. *)
Definition perform (w : World) (c : Call) : M unit :=
  match c with
  | Stat uri => stat w uri ;;; ret tt
  | ReadFile commands uri => readFile commands w uri false ;;; ret tt
  | WriteFile uri content options => writeFile w uri content options
  | Rename oldUri newUri options => rename oldUri newUri options
  | Delete uri recursive => delete uri recursive
  | ConfigurationChange => updateMemberSupport (instance w)
  | DidCloseTextDocument doc =>
      update (set_statCache (FileStatCache_clear (Some (inl doc))))
  | ClearQSYSStats uri => update (set_statCache (FileStatCache_clear uri))
  | OnEvent ev => onEvent (instance w) ev
  end.

(** The provider after a sequence of calls, each in its own world; a call
    that throws leaves the fields as they were when it threw. *)
Fixpoint performAll (calls : list (World * Call)) (this : QSysFS) : QSysFS :=
  match calls with
  | [] => this
  | (w, c) :: rest => performAll rest (after (perform w c this))
  end.

(** A live session, as [readFile] and [writeFile] test it. *)
Definition liveSession (inst : Instance) : bool :=
  match getConnection inst, getContent inst with
  | Some _, Some _ => true
  | _, _ => false
  end.

Definition isDisconnected (ev : InstanceEvent) : bool :=
  match ev with
  | disconnected => true
  | connected => false
  end.

(** Whether a call made in world [w] clears the stat-cache entry of
    path [p]. *)
Definition clearsPath (p : string) (w : World) (c : Call) : bool :=
  match c with
  | Stat _ => false
  | ReadFile commands _ =>
      negb (liveSession (instance w))
      && existsb (fun e => isDisconnected e.2) (fired (connectToPrevious commands))
  | WriteFile uri _ _ => bool_decide (path uri = p)
  | Rename oldUri newUri _ =>
      bool_decide (path oldUri = p) || bool_decide (path newUri = p)
  | Delete uri _ => bool_decide (path uri = p)
  | ConfigurationChange => false
  | DidCloseTextDocument doc => bool_decide (path doc = p)
  | ClearQSYSStats (Some u) => bool_decide (toPath u = p)
  | ClearQSYSStats None => true
  | OnEvent ev => isDisconnected ev
  end.

End Provider.

Arguments mkRun {H A}.
Arguments outcome {H A}.
Arguments after {H A}.
Arguments effects {H A}.

Notation "x <- m ;; k" := (bind m (fun x => k))
  (at level 60, m at next level, right associativity).
Notation "m ;;; k" := (bind m (fun _ => k))
  (at level 60, right associativity).

(** ** [isProtectedFilter] *)

(** An entry of [objectFilters], the fields [isProtectedFilter] reads. *)
Record ObjectFilters := mkObjectFilters {
  filter_name : string;
  protected : bool;
}.

(** [isProtectedFilter(filter)]. [objectFilters] stands for
    [instance.getConfig()?.objectFilters]: [None] without a configuration.
    An [undefined] or empty [filter] is falsy, [find] returns the first
    entry of that name, and whatever is falsy becomes [false]. *)
Definition isProtectedFilter (objectFilters : option (list ObjectFilters))
    (filter : option string) : bool :=
  match filter with
  | Some f =>
      if QueryString.nonEmpty f then
        match objectFilters with
        | Some filters =>
            match List.find (fun x => String.eqb (filter_name x) f) filters with
            | Some x => protected x
            | None => false
            end
        | None => false
        end
      else false
  | None => false
  end.

(** * Vocabulary of the properties *)

Section Vocabulary.
Context `{Host}.

Definition isExecuteCommand (e : Effect) : bool :=
  match e with
  | ExecuteCommand _ => true
  | _ => false
  end.

Definition isWarningNotice (e : Effect) : bool :=
  match e with
  | ShowWarningMessage _ => true
  | _ => false
  end.

Definition isErrorNotice (e : Effect) : bool :=
  match e with
  | ShowErrorMessage _ => true
  | _ => false
  end.

Definition isNotice (e : Effect) : bool :=
  isWarningNotice e || isErrorNotice e.

(** The transfers that carry source dates. *)
Definition isWithDates (e : Effect) : bool :=
  match e with
  | DownloadMemberContentWithDates _ _ _ _ => true
  | UploadMemberContentWithDates _ _ _ _ _ => true
  | _ => false
  end.

(** The calls that reach the Remote Content Gateway. *)
Definition isGatewayCall (e : Effect) : bool :=
  match e with
  | GetAttributes _ _ => true
  | DownloadMemberContent _ _ _ _ => true
  | DownloadMemberContentWithDates _ _ _ _ => true
  | UploadMemberContent _ _ _ _ _ => true
  | UploadMemberContentWithDates _ _ _ _ _ => true
  | _ => false
  end.

(** How many of the calls in [l] satisfy [f]. *)
Definition count (f : Effect -> bool) (l : list Effect) : nat :=
  List.length (List.filter f l).

(** The metadata [stat] synthesizes without a session. *)
Definition placeholder (inst : Instance) (uri : Uri) : FileStat :=
  {| ctime := zero;
     mtime := zero;
     size := zero;
     type := fileTypeOf (path uri);
     permissions := getFilePermission inst uri |}.

(** The attribute query [stat] sends for a path. *)
Definition attributeQuery (p : string) : Effect :=
  GetAttributes (parseQSysPath p) ["CREATE_TIME"; "MODIFY_TIME"; "DATA_SIZE"].

(** Every cached metadata carries the file type of its key. *)
Definition cacheTyped (this : QSysFS) : Prop :=
  forall (p : string) (st : FileStat),
    statCache this !! p = Some (Some st) -> type st = fileTypeOf p.

(** The transfer [readFile] awaits in a live session. *)
Definition download (w : World) (connection : IBMi) (contentApi : IBMiContent)
    (uri : Uri) (support : bool) : Effect * Outcome (option string) :=
  let parts := parserMemberPath connection (path uri) in
  if support then
    (DownloadMemberContentWithDates (asp parts) (library parts) (file parts) (name parts),
     downloadMemberContentWithDates (extendedContent w)
       (asp parts) (library parts) (file parts) (name parts))
  else
    (DownloadMemberContent (asp parts) (library parts) (file parts) (name parts),
     downloadMemberContent contentApi
       (asp parts) (library parts) (file parts) (name parts)).

(** The transfer [writeFile] awaits in a live session. *)
Definition upload (w : World) (connection : IBMi) (contentApi : IBMiContent)
    (uri : Uri) (content : list byte) (support : bool) : Effect * Outcome unit :=
  let parts := parserMemberPath connection (path uri) in
  if support then
    (UploadMemberContentWithDates (asp parts) (library parts) (file parts) (name parts)
       (Uint8Array_toString content),
     uploadMemberContentWithDates (extendedContent w)
       (asp parts) (library parts) (file parts) (name parts)
       (Uint8Array_toString content))
  else
    (UploadMemberContent (asp parts) (library parts) (file parts) (name parts) content,
     uploadMemberContent contentApi
       (asp parts) (library parts) (file parts) (name parts) content).

(** [instance.getConfig()?.readOnlyMode], read as a condition. *)
Definition globalReadOnly (inst : Instance) : bool :=
  match getConfig inst with
  | Some cfg => readOnlyMode cfg
  | None => false
  end.

(** No call of the sequence clears the stat-cache entry of [p]. *)
Definition noneClears (p : string) (calls : list (World * Call)) : Prop :=
  Forall (fun wc => clearsPath p wc.1 wc.2 = false) calls.

Definition isReadFile (c : Call) : bool :=
  match c with
  | ReadFile _ _ => true
  | _ => false
  end.

(** The condition under which [updateMemberSupport] enables source
    dates: a connection whose configuration enables them and whose SQL
    runner is available. *)
Definition sourceDatesAvailable (inst : Instance) : bool :=
  match getConnection inst with
  | Some connection =>
      match config connection with
      | Some cfg => enableSourceDates cfg && sqlRunnerAvailable connection
      | None => false
      end
  | None => false
  end.

(** The handler's mode after [updateMemberSupport]: the configured one
    when source dates are enabled, the previous one otherwise. *)
Definition recomputedMode (inst : Instance) (previous : SourceDateMode) : SourceDateMode :=
  match getConnection inst with
  | Some connection =>
      match config connection with
      | Some cfg =>
          if enableSourceDates cfg && sqlRunnerAvailable connection
          then sourceDateMode cfg else previous
      | None => previous
      end
  | None => previous
  end.

(** The handler's [enabled] mirrors [extendedMemberSupport]. *)
Definition mirrored (this : QSysFS) : Prop :=
  enabled (sourceDateHandler this) = extendedMemberSupport this.

(** The paths the [stat] calls of a sequence ask for. *)
Definition statPaths (calls : list (World * Call)) : list string :=
  omap (fun wc => match wc.2 with
                  | Stat uri => Some (path uri)
                  | _ => None
                  end) calls.

(** [needle] occurs in [s]. *)
Definition mentions (s needle : string) : Prop :=
  exists before behind : string, s = before ++ needle ++ behind.

End Vocabulary.

(** * A sample host *)

(** A concrete host to run the provider on: numbers are integers, the
    library [MYLIB] holds the source file [MYFILE] with the one member
    [MEMBER1.RPGLE], ten bytes long. *)
Module Sample.

(** A run of decimal digits as an integer; [0] for anything else. *)
Fixpoint decimal (acc : Z) (s : string) : Z :=
  match s with
  | EmptyString => acc
  | String c rest =>
      let n := Z.of_N (N_of_ascii c) in
      if ((48 <=? n) && (n <=? 57))%Z then decimal (10 * acc + (n - 48)) rest else 0%Z
  end.

#[export] Instance host : Host := {|
  number := Z;
  zero := 0%Z;
  Number := decimal 0;
  parseAttrDate := decimal 0;
  QsysPath := string;
  parseQSysPath := fun p => p;
  Uri_toString := fun uri => scheme uri ++ ":" ++ path uri;
  Buffer_from_utf8 := list_byte_of_string;
  Uint8Array_toString := string_of_list_byte;
|}.

Definition memberPath : string := "/MYLIB/MYFILE/MEMBER1.RPGLE".

Definition memberUri : Uri := getUriFromPath "MYLIB/MYFILE/MEMBER1.RPGLE" None.

Definition fileUri : Uri := getUriFromPath "MYLIB/MYFILE" None.

Definition missingUri : Uri := getUriFromPath "MYLIB/MYFILE/NOSUCH.RPGLE" None.

Definition memberContent : string := "XXXXXXXXXX".

(** The last three pieces of a path name library, file and member. *)
Definition parts (p : string) : MemberPath :=
  match reverse (filter (fun x => QueryString.nonEmpty x = true) (JsString.split "/" p)) with
  | member :: file :: library :: asp :: _ =>
      mkMemberPath (Some asp) library file member
  | member :: file :: library :: [] => mkMemberPath None library file member
  | _ => mkMemberPath None EmptyString EmptyString EmptyString
  end.

Definition gateway : IBMiContent := {|
  getAttributes := fun p =>
    if String.eqb p memberPath
    then Returns (Some (mkAttributes "1700000000000" "1700000360000" "10"))
    else Returns None;
  downloadMemberContent := fun _ library file member =>
    if String.eqb library "MYLIB" && String.eqb file "MYFILE"
       && String.eqb member "MEMBER1.RPGLE"
    then Returns (Some memberContent)
    else Returns None;
  uploadMemberContent := fun _ _ _ _ _ => Returns tt;
|}.

Definition extended : ExtendedIBMiContent := {|
  downloadMemberContentWithDates := fun _ _ _ _ => Returns None;
  uploadMemberContentWithDates := fun _ _ _ _ _ => Returns tt;
|}.

(** A connection that enables source dates on a system without SQL. *)
Definition configuration : ConnectionConfig :=
  {| enableSourceDates := true; sourceDateMode := diff; readOnlyMode := false |}.

Definition connection : IBMi := {|
  config := Some configuration;
  sqlRunnerAvailable := false;
  getEncoding := {| invalid := false |};
  parserMemberPath := parts;
|}.

Definition offline : World := {|
  instance := {| getConnection := None; getContent := None; getConfig := None |};
  extendedContent := extended;
|}.

Definition online : World := {|
  instance := {| getConnection := Some connection;
                 getContent := Some gateway;
                 getConfig := Some configuration |};
  extendedContent := extended;
|}.

(** The command finds the previous connection, or finds none. *)
Definition reconnects : Commands :=
  {| connectToPrevious := {| fired := [(instance online, connected)];
                             reconnected := online |} |}.

Definition staysOffline : Commands :=
  {| connectToPrevious := {| fired := []; reconnected := offline |} |}.

(** The same system with the SQL runner available and CCSID 65535. *)
Definition sqlConnection : IBMi := {|
  config := Some configuration;
  sqlRunnerAvailable := true;
  getEncoding := {| invalid := true |};
  parserMemberPath := parts;
|}.

Definition onlineSql : World := {|
  instance := {| getConnection := Some sqlConnection;
                 getContent := Some gateway;
                 getConfig := Some configuration |};
  extendedContent := extended;
|}.

(** A gateway whose every call fails. *)
Definition timedOut : Exception := Error "Connection timed out".

Definition failing : IBMiContent := {|
  getAttributes := fun _ => Throws timedOut;
  downloadMemberContent := fun _ _ _ _ => Throws timedOut;
  uploadMemberContent := fun _ _ _ _ _ => Throws timedOut;
|}.

Definition flaky : World := {|
  instance := {| getConnection := Some connection;
                 getContent := Some failing;
                 getConfig := Some configuration |};
  extendedContent := extended;
|}.

(** A world in read-only mode. *)
Definition readOnlyWorld : World := {|
  instance := {| getConnection := None;
                 getContent := None;
                 getConfig := Some {| enableSourceDates := false;
                                      sourceDateMode := edit;
                                      readOnlyMode := true |} |};
  extendedContent := extended;
|}.

Definition member1 : IBMiMember :=
  mkMember None "MYLIB" "MYFILE" "MEMBER1" "RPGLE".

(** Two filters of the same name: the first one decides. *)
Definition filters : list ObjectFilters :=
  [mkObjectFilters "sources" true; mkObjectFilters "objects" false;
   mkObjectFilters "objects" true].

End Sample.

(** * Properties *)

(** ** Strings and query strings *)

Lemma split_length (sep : ascii) (s : string) :
  List.length (JsString.split sep s) = S (JsString.occurrences sep s).
Proof.
  induction s as [|c rest IH]; simpl; [reflexivity|].
  destruct (Ascii.eqb c sep); simpl.
  - now rewrite IH.
  - destruct (JsString.split sep rest) as [|piece pieces]; simpl in *; lia.
Qed.

Lemma split_no_separator (sep : ascii) (s : string) :
  JsString.occurrences sep s = 0 -> JsString.split sep s = [s].
Proof.
  induction s as [|c rest IH]; simpl; [reflexivity|].
  destruct (Ascii.eqb c sep); simpl; [discriminate|].
  intros Hn. now rewrite (IH Hn).
Qed.

Lemma addKeyValue_other (obj : gmap string QueryString.value) kv (k : string) :
  QueryString.unescape kv.1 ≠ k ->
  QueryString.addKeyValue obj kv !! k = obj !! k.
Proof.
  intros Hne. unfold QueryString.addKeyValue.
  destruct (obj !! QueryString.unescape kv.1) as [[cur|cur]|];
    now rewrite lookup_insert_ne.
Qed.

Lemma foldl_addKeyValue_absent (pairs : list (string * string)) (k : string) :
  forall obj : gmap string QueryString.value,
    Forall (fun kv => QueryString.unescape kv.1 ≠ k) pairs ->
    foldl QueryString.addKeyValue obj pairs !! k = obj !! k.
Proof.
  induction pairs as [|kv pairs IH]; intros obj Hall; simpl; [reflexivity|].
  inversion Hall as [|? ? Hkv Hrest]; subst.
  rewrite IH by assumption. now apply addKeyValue_other.
Qed.

(** A query string none of whose pairs has the key [k] parses to an object
    without [k]. *)
Lemma parse_absent (qs k : string) :
  Forall (fun kv => QueryString.unescape kv.1 ≠ k) (QueryString.pairs qs) ->
  QueryString.parse qs !! k = None.
Proof.
  intros Hall. unfold QueryString.parse. rewrite foldl_addKeyValue_absent by assumption.
  apply lookup_empty.
Qed.

(** The query string made of the one pair [readonly=v]. *)
Lemma parse_single_readonly (v : string) :
  JsString.occurrences "&" v = 0 ->
  QueryString.parse ("readonly=" ++ v)
  = {[ "readonly" := QueryString.Str (QueryString.unescape v) ]}.
Proof.
  intros Hv. unfold QueryString.parse, QueryString.pairs.
  rewrite split_no_separator by (simpl; exact Hv).
  reflexivity.
Qed.

(** C6. Encoding a path with an options record and decoding the identifier
    gives back the record's [readonly]; decoding an identifier whose parsed
    query does not hold exactly the string [true] under [readonly] gives
    [readonly = false]: when no pair of the query has that key (absent), and
    when the query is the one pair [readonly=v] with [v] not spelling
    [true] (malformed). *)
Theorem options_roundtrip :
  (forall (p : string) (options : QsysFsOptions),
      readonly (parseFSOptions (getUriFromPath p (Some options))) = readonly options)
  /\ (forall uri : Uri,
         QueryString.parse (query uri) !! "readonly" ≠ Some (QueryString.Str "true") ->
         readonly (parseFSOptions uri) = false)
  /\ (forall uri : Uri,
         Forall (fun kv => QueryString.unescape kv.1 ≠ "readonly") (QueryString.pairs (query uri)) ->
         readonly (parseFSOptions uri) = false)
  /\ (forall (uri : Uri) (v : string),
         query uri = "readonly=" ++ v ->
         JsString.occurrences "&" v = 0 ->
         QueryString.unescape v ≠ "true" ->
         readonly (parseFSOptions uri) = false).
Proof.
  repeat split.
  - intros p [[|]]; unfold getUriFromPath;
      destruct (JsString.startsWith "/" p); vm_compute; reflexivity.
  - intros uri Hne. unfold parseFSOptions; simpl.
    now apply bool_decide_eq_false.
  - intros uri Habs. unfold parseFSOptions; simpl.
    apply bool_decide_eq_false. now rewrite parse_absent.
  - intros uri v Hq Hv Hne. unfold parseFSOptions; simpl.
    apply bool_decide_eq_false. rewrite Hq, parse_single_readonly by assumption.
    rewrite lookup_singleton_eq. congruence.
Qed.

(** A repeated key parses to an array, which is not the string [true]. *)
Example decode_repeated_readonly :
  readonly (parseFSOptions (mkUri "member" "/MYLIB/MYFILE/MEMBER1.RPGLE"
                              "readonly=true&readonly=true")) = false.
Proof. vm_compute. reflexivity. Qed.

(** A key without a value parses to the empty string. *)
Example decode_bare_readonly :
  readonly (parseFSOptions (mkUri "member" "/MYLIB/MYFILE/MEMBER1.RPGLE" "readonly")) = false.
Proof. vm_compute. reflexivity. Qed.

(** Escapes are resolved before the comparison. *)
Example decode_escaped_readonly :
  readonly (parseFSOptions (mkUri "member" "/MYLIB/MYFILE/MEMBER1.RPGLE"
                              "x=1&readonly=%74rue")) = true.
Proof. vm_compute. reflexivity. Qed.

Example getMemberUri_member :
  getMemberUri (mkMember None "MYLIB" "MYFILE" "MEMBER1" "RPGLE") (Some (mkOptions true))
  = mkUri "member" "/MYLIB/MYFILE/MEMBER1.RPGLE" "readonly=true".
Proof. reflexivity. Qed.

(** Without an options record the identifier decodes to [readonly = false]. *)
Lemma no_options_decode (p : string) :
  readonly (parseFSOptions (getUriFromPath p None)) = false.
Proof.
  unfold getUriFromPath; destruct (JsString.startsWith "/" p); vm_compute; reflexivity.
Qed.

(** ** The provider *)

Section Properties.
Context `{Host}.

Ltac run := unfold bind, ret, throw, call, read, update; simpl.

(** *** [stat], case by case *)

Lemma stat_cached (w : World) (uri : Uri) (this : QSysFS) (st : FileStat) :
  statCache this !! path uri = Some (Some st) ->
  stat w uri this = mkRun (Returns st) this [].
Proof. intros Hc. unfold stat, FileStatCache_get. run. now rewrite Hc. Qed.

Lemma stat_cached_absent (w : World) (uri : Uri) (this : QSysFS) :
  statCache this !! path uri = Some None ->
  stat w uri this = mkRun (Throws (FileNotFound uri)) this [].
Proof. intros Hc. unfold stat, FileStatCache_get. run. now rewrite Hc. Qed.

Lemma stat_no_content (w : World) (uri : Uri) (this : QSysFS) :
  statCache this !! path uri = None ->
  getContent (instance w) = None ->
  stat w uri this
  = mkRun (Returns (placeholder (instance w) uri))
      (set_statCache
         (FileStatCache_set (inr (path uri)) (Some (placeholder (instance w) uri))) this)
      [].
Proof.
  intros Hc Hs. unfold stat, FileStatCache_get. run. rewrite Hc, Hs. reflexivity.
Qed.

Lemma stat_no_attributes (w : World) (content : IBMiContent) (uri : Uri) (this : QSysFS) :
  statCache this !! path uri = None ->
  getContent (instance w) = Some content ->
  getAttributes content (parseQSysPath (path uri)) = Returns None ->
  stat w uri this
  = mkRun (Throws (FileNotFound uri))
      (set_statCache (FileStatCache_set (inr (path uri)) None) this)
      [attributeQuery (path uri)].
Proof.
  intros Hc Hs Ha. unfold stat, FileStatCache_get. run. rewrite Hc, Hs. simpl.
  rewrite Ha. reflexivity.
Qed.

Lemma stat_attributes (w : World) (content : IBMiContent) (uri : Uri) (this : QSysFS)
    (attributes : Attributes) :
  statCache this !! path uri = None ->
  getContent (instance w) = Some content ->
  getAttributes content (parseQSysPath (path uri)) = Returns (Some attributes) ->
  let st := {| ctime := parseAttrDate (CREATE_TIME attributes);
               mtime := parseAttrDate (MODIFY_TIME attributes);
               size := Number (DATA_SIZE attributes);
               type := fileTypeOf (path uri);
               permissions := getFilePermission (instance w) uri |} in
  stat w uri this
  = mkRun (Returns st)
      (set_statCache (FileStatCache_set (inr (path uri)) (Some st)) this)
      [attributeQuery (path uri)].
Proof.
  intros Hc Hs Ha. unfold stat, FileStatCache_get. run. rewrite Hc, Hs. simpl.
  rewrite Ha. reflexivity.
Qed.

Lemma stat_query_throws (w : World) (content : IBMiContent) (uri : Uri) (this : QSysFS)
    (e : Exception) :
  statCache this !! path uri = None ->
  getContent (instance w) = Some content ->
  getAttributes content (parseQSysPath (path uri)) = Throws e ->
  stat w uri this = mkRun (Throws e) this [attributeQuery (path uri)].
Proof.
  intros Hc Hs Ha. unfold stat, FileStatCache_get. run. rewrite Hc, Hs. simpl.
  rewrite Ha. reflexivity.
Qed.

(** *** [updateMemberSupport] and the lifecycle handlers *)

Lemma updateMemberSupport_returns (inst : Instance) (this : QSysFS) :
  outcome (updateMemberSupport inst this) = Returns tt.
Proof.
  unfold updateMemberSupport. run.
  destruct (getConnection inst) as [c|]; simpl; [|reflexivity].
  destruct (config c) as [cfg|]; simpl; [|reflexivity].
  destruct (enableSourceDates cfg), (sqlRunnerAvailable c); simpl; try reflexivity.
  destruct (invalid (getEncoding c)); reflexivity.
Qed.

Lemma updateMemberSupport_statCache (inst : Instance) (this : QSysFS) :
  statCache (after (updateMemberSupport inst this)) = statCache this.
Proof.
  unfold updateMemberSupport. run.
  destruct (getConnection inst) as [c|]; simpl; [|reflexivity].
  destruct (config c) as [cfg|]; simpl; [|reflexivity].
  destruct (enableSourceDates cfg), (sqlRunnerAvailable c); simpl; try reflexivity.
  destruct (invalid (getEncoding c)); reflexivity.
Qed.

Lemma updateMemberSupport_effects (inst : Instance) (this : QSysFS) :
  Forall (fun e => isNotice e = true) (effects (updateMemberSupport inst this)).
Proof.
  unfold updateMemberSupport. run.
  destruct (getConnection inst) as [c|]; simpl; [|constructor].
  destruct (config c) as [cfg|]; simpl; [|constructor].
  destruct (enableSourceDates cfg), (sqlRunnerAvailable c); simpl; try constructor;
    try reflexivity; try constructor.
  destruct (invalid (getEncoding c)); simpl; repeat constructor.
Qed.

Lemma onEvent_returns (inst : Instance) (ev : InstanceEvent) (this : QSysFS) :
  outcome (onEvent inst ev this) = Returns tt.
Proof.
  destruct ev; simpl; [apply updateMemberSupport_returns|].
  unfold bind. rewrite updateMemberSupport_returns. reflexivity.
Qed.

Lemma onEvent_statCache (inst : Instance) (ev : InstanceEvent) (this : QSysFS) :
  statCache (after (onEvent inst ev this))
  = if isDisconnected ev then ∅ else statCache this.
Proof.
  destruct ev; simpl; [apply updateMemberSupport_statCache|].
  unfold bind. rewrite updateMemberSupport_returns. reflexivity.
Qed.

Lemma onEvent_effects (inst : Instance) (ev : InstanceEvent) (this : QSysFS) :
  Forall (fun e => isNotice e = true) (effects (onEvent inst ev this)).
Proof.
  destruct ev; simpl; [apply updateMemberSupport_effects|].
  unfold bind. rewrite updateMemberSupport_returns. simpl.
  rewrite app_nil_r. apply updateMemberSupport_effects.
Qed.

Lemma dispatch_returns (events : list (Instance * InstanceEvent)) :
  forall this : QSysFS, outcome (dispatch events this) = Returns tt.
Proof.
  induction events as [|[inst ev] rest IH]; intros this; simpl; [reflexivity|].
  unfold bind. rewrite onEvent_returns. simpl. apply IH.
Qed.

Lemma dispatch_statCache (events : list (Instance * InstanceEvent)) :
  forall this : QSysFS,
    statCache (after (dispatch events this))
    = if existsb (fun e => isDisconnected e.2) events then ∅ else statCache this.
Proof.
  induction events as [|[inst ev] rest IH]; intros this; simpl; [reflexivity|].
  unfold bind. rewrite onEvent_returns. simpl.
  rewrite IH, onEvent_statCache.
  destruct (isDisconnected ev); simpl; [|reflexivity].
  now destruct (existsb _ rest).
Qed.

Lemma dispatch_effects (events : list (Instance * InstanceEvent)) :
  forall this : QSysFS,
    Forall (fun e => isNotice e = true) (effects (dispatch events this)).
Proof.
  induction events as [|[inst ev] rest IH]; intros this; simpl; [constructor|].
  unfold bind. rewrite onEvent_returns. simpl.
  apply Forall_app. split; [apply onEvent_effects | apply IH].
Qed.

(** *** [readFile], case by case *)

Lemma liveSession_true (inst : Instance) :
  liveSession inst = true ->
  exists connection contentApi,
    getConnection inst = Some connection /\ getContent inst = Some contentApi.
Proof.
  unfold liveSession.
  destruct (getConnection inst) as [c|], (getContent inst) as [a|]; try discriminate.
  eauto.
Qed.

Lemma readFile_live (commands : Commands) (w : World) (uri : Uri) (retrying : bool)
    (this : QSysFS) (connection : IBMi) (contentApi : IBMiContent) :
  getConnection (instance w) = Some connection ->
  getContent (instance w) = Some contentApi ->
  let d := download w connection contentApi uri (extendedMemberSupport this) in
  readFile commands w uri retrying this
  = mkRun (match d.2 with
           | Returns (Some memberContent) => Returns (Buffer_from_utf8 memberContent)
           | Returns None => Throws (Error (couldntRead uri))
           | Throws e => Throws e
           end) this [d.1].
Proof.
  intros Hc Ha. simp readFile. rewrite Hc, Ha. simpl.
  unfold download. run.
  destruct (extendedMemberSupport this); simpl.
  - destruct (downloadMemberContentWithDates _ _ _ _ _) as [[c|]|e]; reflexivity.
  - destruct (downloadMemberContent _ _ _ _ _) as [[c|]|e]; reflexivity.
Qed.

Lemma readFile_retry_no_session (commands : Commands) (w : World) (uri : Uri)
    (this : QSysFS) :
  liveSession (instance w) = false ->
  readFile commands w uri true this = mkRun (Throws (Error notConnected)) this [].
Proof.
  intros Hl. simp readFile. unfold liveSession in Hl.
  destruct (getConnection (instance w)) as [c|], (getContent (instance w)) as [a|];
    try discriminate; reflexivity.
Qed.

Lemma readFile_first_no_session (commands : Commands) (w : World) (uri : Uri)
    (this : QSysFS) :
  liveSession (instance w) = false ->
  readFile commands w uri false this
  = (executeConnectToPrevious commands ;;;
     readFile commands (reconnected (connectToPrevious commands)) uri true) this.
Proof.
  intros Hl. rewrite (readFile_equation_1 commands w uri false).
  unfold liveSession in Hl.
  destruct (getConnection (instance w)) as [c|], (getContent (instance w)) as [a|];
    try discriminate; reflexivity.
Qed.

Lemma readFile_retry_after (commands : Commands) (w : World) (uri : Uri)
    (this : QSysFS) :
  after (readFile commands w uri true this) = this.
Proof.
  destruct (liveSession (instance w)) eqn:Hl.
  - destruct (liveSession_true _ Hl) as (c & a & Hc & Ha).
    now rewrite (readFile_live _ _ _ _ _ c a Hc Ha).
  - now rewrite readFile_retry_no_session.
Qed.

Lemma executeConnectToPrevious_returns (commands : Commands) (this : QSysFS) :
  outcome (executeConnectToPrevious commands this) = Returns tt.
Proof. unfold executeConnectToPrevious. run. apply dispatch_returns. Qed.

Lemma executeConnectToPrevious_statCache (commands : Commands) (this : QSysFS) :
  statCache (after (executeConnectToPrevious commands this))
  = if existsb (fun e => isDisconnected e.2) (fired (connectToPrevious commands))
    then ∅ else statCache this.
Proof. unfold executeConnectToPrevious. run. apply dispatch_statCache. Qed.

Lemma executeConnectToPrevious_effects (commands : Commands) (this : QSysFS) :
  exists notices,
    effects (executeConnectToPrevious commands this)
    = ExecuteCommand "code-for-ibmi.connectToPrevious" :: notices
    /\ Forall (fun e => isNotice e = true) notices.
Proof.
  unfold executeConnectToPrevious. run. eexists; split; [reflexivity|].
  apply dispatch_effects.
Qed.

Lemma readFile_first_statCache (commands : Commands) (w : World) (uri : Uri)
    (this : QSysFS) :
  liveSession (instance w) = false ->
  statCache (after (readFile commands w uri false this))
  = if existsb (fun e => isDisconnected e.2) (fired (connectToPrevious commands))
    then ∅ else statCache this.
Proof.
  intros Hl. rewrite readFile_first_no_session by assumption.
  unfold bind. rewrite executeConnectToPrevious_returns.
  cbn [after]. rewrite readFile_retry_after.
  apply executeConnectToPrevious_statCache.
Qed.

(** *** [writeFile], [rename] and [delete] *)

Lemma writeFile_after (w : World) (uri : Uri) (content : list byte)
    (options : WriteOptions) (this : QSysFS) :
  after (writeFile w uri content options this)
  = set_statCache (FileStatCache_clear (Some (inl uri))) this.
Proof.
  unfold writeFile. run.
  destruct (getConnection (instance w)) as [c|], (getContent (instance w)) as [a|];
    simpl; try reflexivity.
  destruct (extendedMemberSupport this); reflexivity.
Qed.

Lemma writeFile_no_session (w : World) (uri : Uri) (content : list byte)
    (options : WriteOptions) (this : QSysFS) :
  liveSession (instance w) = false ->
  writeFile w uri content options this
  = mkRun (Throws (Error notConnected))
      (set_statCache (FileStatCache_clear (Some (inl uri))) this) [].
Proof.
  intros Hl. unfold writeFile, liveSession in *. run.
  destruct (getConnection (instance w)) as [c|], (getContent (instance w)) as [a|];
    try discriminate; reflexivity.
Qed.

Lemma writeFile_live (w : World) (uri : Uri) (content : list byte)
    (options : WriteOptions) (this : QSysFS)
    (connection : IBMi) (contentApi : IBMiContent) :
  getConnection (instance w) = Some connection ->
  getContent (instance w) = Some contentApi ->
  let u := upload w connection contentApi uri content (extendedMemberSupport this) in
  writeFile w uri content options this
  = mkRun u.2 (set_statCache (FileStatCache_clear (Some (inl uri))) this) [u.1].
Proof.
  intros Hc Ha. unfold writeFile, upload. run. rewrite Hc, Ha. simpl.
  destruct (extendedMemberSupport this); reflexivity.
Qed.

Lemma rename_run (oldUri newUri : Uri) (options : bool) (this : QSysFS) :
  rename oldUri newUri options this
  = mkRun (Returns tt)
      (set_statCache (fun m => base.delete (path newUri) (base.delete (path oldUri) m)) this)
      [ConsoleLog oldUri newUri options].
Proof. reflexivity. Qed.

Lemma delete_run (uri : Uri) (recursive : bool) (this : QSysFS) :
  delete uri recursive this
  = mkRun (Throws (Error notImplemented))
      (set_statCache (base.delete (path uri)) this) [].
Proof. reflexivity. Qed.

(** *** The stat cache across calls *)

Lemma after_forget {A} (m : M A) (this : QSysFS) :
  after ((m ;;; ret tt) this) = after (m this).
Proof. unfold bind. now destruct (outcome (m this)). Qed.

Lemma effects_forget {A} (m : M A) (this : QSysFS) :
  effects ((m ;;; ret tt) this) = effects (m this).
Proof. unfold bind. destruct (outcome (m this)); simpl; [apply app_nil_r | reflexivity]. Qed.

(** [stat] leaves every entry as it was, except that it fills the entry
    of its own path when that was unbound: with the negative marker, or
    with metadata of the path's file type. *)
Lemma stat_lookup (w : World) (uri : Uri) (this : QSysFS) (p : string) :
  let cache' := statCache (after (stat w uri this)) in
  cache' !! p = statCache this !! p
  \/ (statCache this !! p = None
      /\ (cache' !! p = Some None
          \/ exists st, cache' !! p = Some (Some st) /\ type st = fileTypeOf p)).
Proof.
  cbv zeta. destruct (statCache this !! path uri) as [[st|]|] eqn:Hc.
  - rewrite (stat_cached _ _ _ _ Hc). now left.
  - rewrite (stat_cached_absent _ _ _ Hc). now left.
  - destruct (getContent (instance w)) as [content|] eqn:Hs.
    + destruct (getAttributes content (parseQSysPath (path uri))) as [[attrs|]|e] eqn:Ha.
      * rewrite (stat_attributes _ _ _ _ _ Hc Hs Ha). simpl.
        unfold FileStatCache_set; simpl.
        destruct (decide (path uri = p)) as [<-|Hne].
        -- right. split; [assumption|]. right. eexists.
           rewrite lookup_insert_eq. split; reflexivity.
        -- left. now rewrite lookup_insert_ne.
      * rewrite (stat_no_attributes _ _ _ _ Hc Hs Ha). simpl.
        unfold FileStatCache_set; simpl.
        destruct (decide (path uri = p)) as [<-|Hne].
        -- right. split; [assumption|]. left. apply lookup_insert_eq.
        -- left. now rewrite lookup_insert_ne.
      * rewrite (stat_query_throws _ _ _ _ _ Hc Hs Ha). now left.
    + rewrite (stat_no_content _ _ _ Hc Hs). simpl.
      unfold FileStatCache_set; simpl.
      destruct (decide (path uri = p)) as [<-|Hne].
      * right. split; [assumption|]. right. eexists.
        rewrite lookup_insert_eq. split; reflexivity.
      * left. now rewrite lookup_insert_ne.
Qed.

(** What one call does to the entry of a path: nothing, or it clears it,
    or it fills the unbound entry as [stat] does. *)
Lemma perform_lookup (w : World) (c : Call) (this : QSysFS) (p : string) :
  let cache' := statCache (after (perform w c this)) in
  cache' !! p = statCache this !! p
  \/ (clearsPath p w c = true /\ cache' !! p = None)
  \/ (statCache this !! p = None
      /\ (cache' !! p = Some None
          \/ exists st, cache' !! p = Some (Some st) /\ type st = fileTypeOf p)).
Proof.
  cbv zeta. destruct c as [uri|commands uri|uri content options|oldUri newUri options
                          |uri recursive| |doc|[u|]|ev]; simpl perform.
  - rewrite after_forget.
    destruct (stat_lookup w uri this p) as [Hs|Hs]; [now left | right; now right].
  - rewrite after_forget. destruct (liveSession (instance w)) eqn:Hl.
    + destruct (liveSession_true _ Hl) as (cn & a & Hc & Ha).
      rewrite (readFile_live _ _ _ _ _ cn a Hc Ha). now left.
    + rewrite readFile_first_statCache by assumption.
      simpl clearsPath. rewrite Hl. simpl.
      destruct (existsb _ _); [right; left; split; [reflexivity | apply lookup_empty]
                              | now left].
  - rewrite writeFile_after. simpl.
    destruct (decide (path uri = p)) as [<-|Hne].
    + right; left. split; [now apply bool_decide_eq_true | apply lookup_delete_eq].
    + left. now apply lookup_delete_ne.
  - rewrite rename_run. simpl.
    destruct (decide (path newUri = p)) as [<-|Hn].
    + right; left. split; [|apply lookup_delete_eq].
      apply orb_true_iff. right. now apply bool_decide_eq_true.
    + rewrite lookup_delete_ne by assumption.
      destruct (decide (path oldUri = p)) as [<-|Ho].
      * right; left. split; [|apply lookup_delete_eq].
        apply orb_true_iff. left. now apply bool_decide_eq_true.
      * left. now apply lookup_delete_ne.
  - rewrite delete_run. simpl.
    destruct (decide (path uri = p)) as [<-|Hne].
    + right; left. split; [now apply bool_decide_eq_true | apply lookup_delete_eq].
    + left. now apply lookup_delete_ne.
  - left. now rewrite updateMemberSupport_statCache.
  - simpl. destruct (decide (path doc = p)) as [<-|Hne].
    + right; left. split; [now apply bool_decide_eq_true | apply lookup_delete_eq].
    + left. now apply lookup_delete_ne.
  - simpl. destruct (decide (toPath u = p)) as [<-|Hne].
    + right; left. split; [now apply bool_decide_eq_true | apply lookup_delete_eq].
    + left. now apply lookup_delete_ne.
  - simpl. right; left. split; [reflexivity | apply lookup_empty].
  - rewrite onEvent_statCache. simpl.
    destruct (isDisconnected ev); [right; left; split; [reflexivity | apply lookup_empty]
                                  | now left].
Qed.

(** A bound entry survives every call that does not clear its path. *)
Lemma performAll_keeps_entry (p : string) (e : option FileStat)
    (calls : list (World * Call)) :
  forall this : QSysFS,
    statCache this !! p = Some e ->
    Forall (fun wc => clearsPath p wc.1 wc.2 = false) calls ->
    statCache (performAll calls this) !! p = Some e.
Proof.
  induction calls as [|[w c] rest IH]; intros this He Hall; simpl; [assumption|].
  inversion Hall as [|? ? Hc Hrest]; subst. simpl in Hc.
  apply IH; [|assumption].
  destruct (perform_lookup w c this p) as [Hs|[[Hcl _]|[Hn _]]]; congruence.
Qed.

Lemma new_QSysFS_cacheTyped : cacheTyped new_QSysFS.
Proof. intros p st Hl. simpl in Hl. now rewrite lookup_empty in Hl. Qed.

Lemma perform_cacheTyped (w : World) (c : Call) (this : QSysFS) :
  cacheTyped this -> cacheTyped (after (perform w c this)).
Proof.
  intros Ht p st Hl.
  destruct (perform_lookup w c this p) as [Hs|[[_ Hn]|[_ [Hn|(st' & Hs & Hty)]]]];
    try congruence.
  apply Ht. congruence.
Qed.

(** Every provider reached from a fresh one caches metadata only under
    keys of the metadata's file type. *)
Lemma performAll_cacheTyped (calls : list (World * Call)) :
  forall this : QSysFS, cacheTyped this -> cacheTyped (performAll calls this).
Proof.
  induction calls as [|[w c] rest IH]; intros this Ht; simpl; [assumption|].
  apply IH. now apply perform_cacheTyped.
Qed.

(** Whatever [stat] returns has the file type of the path, once the
    cache is well typed. *)
Lemma stat_type (w : World) (uri : Uri) (this : QSysFS) (st : FileStat) :
  cacheTyped this ->
  outcome (stat w uri this) = Returns st ->
  type st = fileTypeOf (path uri).
Proof.
  intros Ht Hr. destruct (statCache this !! path uri) as [[st'|]|] eqn:Hc.
  - rewrite (stat_cached _ _ _ _ Hc) in Hr. inversion Hr; subst. now apply Ht.
  - rewrite (stat_cached_absent _ _ _ Hc) in Hr. discriminate.
  - destruct (getContent (instance w)) as [content|] eqn:Hs.
    + destruct (getAttributes content (parseQSysPath (path uri))) as [[attrs|]|e] eqn:Ha.
      * rewrite (stat_attributes _ _ _ _ _ Hc Hs Ha) in Hr. now inversion Hr.
      * rewrite (stat_no_attributes _ _ _ _ Hc Hs Ha) in Hr. discriminate.
      * rewrite (stat_query_throws _ _ _ _ _ Hc Hs Ha) in Hr. discriminate.
    + rewrite (stat_no_content _ _ _ Hc Hs) in Hr. now inversion Hr.
Qed.

(** C1. On every provider reached from a fresh one, in every world,
    whatever [stat] returns is classified by the number of pieces the
    path splits into at [/] (one more than the number of [/] in it): a
    file when there are more than 3, a directory when there are 3 or
    fewer. [/MYLIB/MYFILE] is a directory and
    [/MYLIB/MYFILE/MEMBER1.RPGLE] a file. *)
Theorem stat_classifies_by_depth :
  (forall (calls : list (World * Call)) (w : World) (uri : Uri) (st : FileStat),
      outcome (stat w uri (performAll calls new_QSysFS)) = Returns st ->
      type st = fileTypeOf (path uri))
  /\ (forall p : string,
         (3 < S (JsString.occurrences "/" p) -> fileTypeOf p = File)
         /\ (S (JsString.occurrences "/" p) <= 3 -> fileTypeOf p = Directory))
  /\ fileTypeOf "/MYLIB/MYFILE" = Directory
  /\ fileTypeOf "/MYLIB/MYFILE/MEMBER1.RPGLE" = File.
Proof.
  split; [|split; [|split; reflexivity]].
  - intros calls w uri st Hr.
    apply (stat_type w uri (performAll calls new_QSysFS)); [|assumption].
    apply performAll_cacheTyped, new_QSysFS_cacheTyped.
  - intros p. unfold fileTypeOf. rewrite split_length.
    split; intros Hn.
    + destruct (3 <? _)%nat eqn:E; [reflexivity|]. apply Nat.ltb_ge in E. lia.
    + destruct (3 <? _)%nat eqn:E; [|reflexivity]. apply Nat.ltb_lt in E. lia.
Qed.

(** *** The negative cache *)

(** C2. When the path is unbound in the stat cache, a session exists and
    the attribute query answers nothing, [stat] binds the path to the
    negative marker and fails with [FileNotFound] after one attribute
    query; and as long as no call clears the entry, a later [stat] of the
    same path fails with [FileNotFound] without any call leaving the
    provider, in every world. *)
Theorem stat_negative_cache (w : World) (content : IBMiContent) (uri : Uri)
    (this : QSysFS) :
  statCache this !! path uri = None ->
  getContent (instance w) = Some content ->
  getAttributes content (parseQSysPath (path uri)) = Returns None ->
  let r := stat w uri this in
  outcome r = Throws (FileNotFound uri)
  /\ statCache (after r) !! path uri = Some None
  /\ effects r = [attributeQuery (path uri)]
  /\ forall (calls : list (World * Call)) (w' : World),
       noneClears (path uri) calls ->
       let r' := stat w' uri (performAll calls (after r)) in
       outcome r' = Throws (FileNotFound uri) /\ effects r' = [].
Proof.
  intros Hc Hs Ha. cbv zeta. rewrite (stat_no_attributes _ _ _ _ Hc Hs Ha).
  cbn [outcome after effects statCache set_statCache].
  assert (Hneg : FileStatCache_set (inr (path uri)) None (statCache this) !! path uri
                 = Some None) by apply lookup_insert_eq.
  repeat split; try assumption.
  - rewrite stat_cached_absent; [reflexivity|].
    now apply performAll_keeps_entry.
  - rewrite stat_cached_absent; [reflexivity|].
    now apply performAll_keeps_entry.
Qed.

(** *** Invalidation on write *)

Lemma stat_unbound (w : World) (uri : Uri) (this this' : QSysFS) :
  statCache this !! path uri = None ->
  statCache this' !! path uri = None ->
  outcome (stat w uri this) = outcome (stat w uri this')
  /\ effects (stat w uri this) = effects (stat w uri this').
Proof.
  intros Hc Hc'. destruct (getContent (instance w)) as [content|] eqn:Hs.
  - destruct (getAttributes content (parseQSysPath (path uri))) as [[attrs|]|e] eqn:Ha.
    + rewrite (stat_attributes _ _ _ _ _ Hc Hs Ha), (stat_attributes _ _ _ _ _ Hc' Hs Ha).
      now split.
    + rewrite (stat_no_attributes _ _ _ _ Hc Hs Ha), (stat_no_attributes _ _ _ _ Hc' Hs Ha).
      now split.
    + rewrite (stat_query_throws _ _ _ _ _ Hc Hs Ha), (stat_query_throws _ _ _ _ _ Hc' Hs Ha).
      now split.
  - rewrite (stat_no_content _ _ _ Hc Hs), (stat_no_content _ _ _ Hc' Hs). now split.
Qed.

Lemma stat_unbound_effects (w : World) (content : IBMiContent) (uri : Uri)
    (this : QSysFS) :
  statCache this !! path uri = None ->
  getContent (instance w) = Some content ->
  effects (stat w uri this) = [attributeQuery (path uri)].
Proof.
  intros Hc Hs.
  destruct (getAttributes content (parseQSysPath (path uri))) as [[attrs|]|e] eqn:Ha.
  - now rewrite (stat_attributes _ _ _ _ _ Hc Hs Ha).
  - now rewrite (stat_no_attributes _ _ _ _ Hc Hs Ha).
  - now rewrite (stat_query_throws _ _ _ _ _ Hc Hs Ha).
Qed.

(** C3. However [writeFile] ends (the upload returns, the upload throws,
    or there is no session and it throws "Not connected to IBM i" without
    any call leaving the provider), the stat-cache entry of the written
    path is unbound afterwards and the other entries are as before; so a
    following [stat] of the path gives the same outcome, with the same
    calls, whatever the cache held before the write. *)
Theorem writeFile_invalidates (w : World) (uri : Uri) (content : list byte)
    (options : WriteOptions) (this : QSysFS) :
  let r := writeFile w uri content options this in
  statCache (after r) !! path uri = None
  /\ (forall p : string, p ≠ path uri -> statCache (after r) !! p = statCache this !! p)
  /\ (liveSession (instance w) = false ->
      outcome r = Throws (Error notConnected) /\ effects r = [])
  /\ forall (w' : World) (before : QSysFS),
       let r' := writeFile w uri content options before in
       outcome (stat w' uri (after r)) = outcome (stat w' uri (after r'))
       /\ effects (stat w' uri (after r)) = effects (stat w' uri (after r')).
Proof.
  cbv zeta.
  assert (Hclear : forall s : QSysFS,
             statCache (after (writeFile w uri content options s)) !! path uri = None).
  { intros s. rewrite writeFile_after. apply lookup_delete_eq. }
  split; [apply Hclear|]. split; [|split].
  - intros p Hne. rewrite writeFile_after. simpl. now apply lookup_delete_ne.
  - intros Hl. now rewrite writeFile_no_session.
  - intros w' before. apply stat_unbound; apply Hclear.
Qed.

(** C10. [writeFile] does not read its [options]: two runs that differ
    only in [create] and [overwrite] end the same way, leave the same
    provider and make the same calls. *)
Theorem writeFile_ignores_options (w : World) (uri : Uri) (content : list byte)
    (options options' : WriteOptions) (this : QSysFS) :
  writeFile w uri content options this = writeFile w uri content options' this.
Proof. reflexivity. Qed.

(** *** [rename] *)

(** C7. [rename] returns after unbinding the stat-cache entries of both
    paths; every other entry, the source-date handler and
    [extendedMemberSupport] are as before, and the only call that leaves
    the provider is the [console.log], so no gateway call. With a
    session, a following [stat] of either path sends an attribute
    query. *)
Theorem rename_clears_both (oldUri newUri : Uri) (options : bool) (this : QSysFS) :
  let r := rename oldUri newUri options this in
  outcome r = Returns tt
  /\ statCache (after r) !! path oldUri = None
  /\ statCache (after r) !! path newUri = None
  /\ (forall p : string, p ≠ path oldUri -> p ≠ path newUri ->
        statCache (after r) !! p = statCache this !! p)
  /\ sourceDateHandler (after r) = sourceDateHandler this
  /\ extendedMemberSupport (after r) = extendedMemberSupport this
  /\ effects r = [ConsoleLog oldUri newUri options]
  /\ count isGatewayCall (effects r) = 0
  /\ forall (w : World) (content : IBMiContent),
       getContent (instance w) = Some content ->
       effects (stat w oldUri (after r)) = [attributeQuery (path oldUri)]
       /\ effects (stat w newUri (after r)) = [attributeQuery (path newUri)].
Proof.
  cbv zeta.
  assert (Hold : statCache (after (rename oldUri newUri options this)) !! path oldUri
                 = None).
  { rewrite rename_run. cbn [after statCache set_statCache].
    destruct (decide (path newUri = path oldUri)) as [->|Hne].
    - apply lookup_delete_eq.
    - rewrite lookup_delete_ne by assumption. apply lookup_delete_eq. }
  assert (Hnew : statCache (after (rename oldUri newUri options this)) !! path newUri
                 = None).
  { rewrite rename_run. apply lookup_delete_eq. }
  split; [reflexivity|]. do 2 (split; [assumption|]).
  split; [|repeat split].
  - intros p Ho Hn. rewrite rename_run. cbn [after statCache set_statCache].
    now rewrite !lookup_delete_ne by congruence.
  - now apply stat_unbound_effects with content.
  - now apply stat_unbound_effects with content.
Qed.

(** *** [stat] without a session *)

Lemma getFilePermission_spec (inst : Instance) (uri : Uri) :
  getFilePermission inst uri
  = if globalReadOnly inst || readonly (parseFSOptions uri) then Some Readonly else None.
Proof. reflexivity. Qed.

(** C8. When the path is unbound in the stat cache and there is no
    session, [stat] returns, without any call leaving the provider,
    metadata with [ctime], [mtime] and size [0], the file type of the
    path, and the read-only permission exactly when the global read-only
    mode or the identifier's [readonly] option is set. *)
Theorem stat_without_session (w : World) (uri : Uri) (this : QSysFS) :
  statCache this !! path uri = None ->
  getContent (instance w) = None ->
  exists st : FileStat,
    outcome (stat w uri this) = Returns st
    /\ effects (stat w uri this) = []
    /\ ctime st = zero /\ mtime st = zero /\ size st = zero
    /\ type st = fileTypeOf (path uri)
    /\ permissions st
       = if globalReadOnly (instance w) || readonly (parseFSOptions uri)
         then Some Readonly else None.
Proof.
  intros Hc Hs. exists (placeholder (instance w) uri).
  rewrite (stat_no_content _ _ _ Hc Hs). repeat split.
Qed.

(** C9. The metadata [stat] synthesizes without a session is bound to
    the path in the stat cache: as long as no call clears the entry,
    every later [stat] of the path, in every world (with a session or
    without), returns that same metadata and no call leaves the
    provider. *)
Theorem placeholder_is_cached (w : World) (uri : Uri) (this : QSysFS) :
  statCache this !! path uri = None ->
  getContent (instance w) = None ->
  let r := stat w uri this in
  outcome r = Returns (placeholder (instance w) uri)
  /\ statCache (after r) !! path uri = Some (Some (placeholder (instance w) uri))
  /\ forall (calls : list (World * Call)) (w' : World),
       noneClears (path uri) calls ->
       let r' := stat w' uri (performAll calls (after r)) in
       outcome r' = Returns (placeholder (instance w) uri)
       /\ count isGatewayCall (effects r') = 0
       /\ effects r' = [].
Proof.
  intros Hc Hs. cbv zeta. rewrite (stat_no_content _ _ _ Hc Hs).
  cbn [outcome after effects statCache set_statCache].
  assert (Hin : FileStatCache_set (inr (path uri)) (Some (placeholder (instance w) uri))
                  (statCache this) !! path uri
                = Some (Some (placeholder (instance w) uri))) by apply lookup_insert_eq.
  split; [reflexivity|]. split; [assumption|].
  intros calls w' Hcalls.
  rewrite (stat_cached w' uri _ (placeholder (instance w) uri)).
  - repeat split.
  - now apply performAll_keeps_entry.
Qed.

(** *** Reconnection *)

Lemma count_app (f : Effect -> bool) (l l' : list Effect) :
  count f (l ++ l')%list = count f l + count f l'.
Proof. unfold count. now rewrite List.filter_app, length_app. Qed.

Lemma count_none (f g : Effect -> bool) (l : list Effect) :
  (forall e, g e = true -> f e = false) ->
  Forall (fun e => g e = true) l ->
  count f l = 0.
Proof.
  intros Hfg Hall. unfold count.
  induction Hall as [|e l He _ IH]; simpl; [reflexivity|].
  now rewrite (Hfg e He).
Qed.

Lemma notice_not_command (e : Effect) : isNotice e = true -> isExecuteCommand e = false.
Proof. now destruct e. Qed.

Lemma notice_not_gateway (e : Effect) : isNotice e = true -> isGatewayCall e = false.
Proof. now destruct e. Qed.

Lemma readFile_retry_effects (commands : Commands) (w : World) (uri : Uri)
    (this : QSysFS) :
  count isExecuteCommand (effects (readFile commands w uri true this)) = 0
  /\ count isGatewayCall (effects (readFile commands w uri true this)) <= 1.
Proof.
  destruct (liveSession (instance w)) eqn:Hl.
  - destruct (liveSession_true _ Hl) as (c & a & Hc & Ha).
    rewrite (readFile_live _ _ _ _ _ c a Hc Ha). unfold download.
    destruct (extendedMemberSupport this); split; simpl; auto.
  - rewrite readFile_retry_no_session by assumption. split; simpl; auto.
Qed.

Lemma perform_no_command (w : World) (c : Call) (this : QSysFS) :
  isReadFile c = false ->
  count isExecuteCommand (effects (perform w c this)) = 0.
Proof.
  destruct c as [uri|commands uri|uri content options|oldUri newUri options
                |uri recursive| |doc|u|ev]; simpl perform; intros Hr;
    try discriminate; try reflexivity.
  - rewrite effects_forget.
    destruct (statCache this !! path uri) as [[st|]|] eqn:Hc.
    + now rewrite (stat_cached _ _ _ _ Hc).
    + now rewrite (stat_cached_absent _ _ _ Hc).
    + destruct (getContent (instance w)) as [content|] eqn:Hs.
      * now rewrite (stat_unbound_effects _ _ _ _ Hc Hs).
      * now rewrite (stat_no_content _ _ _ Hc Hs).
  - destruct (liveSession (instance w)) eqn:Hl.
    + destruct (liveSession_true _ Hl) as (cn & a & Hc & Ha).
      rewrite (writeFile_live _ _ _ _ _ cn a Hc Ha). unfold upload.
      now destruct (extendedMemberSupport this).
    + now rewrite writeFile_no_session.
  - apply (count_none _ _ _ notice_not_command), updateMemberSupport_effects.
  - apply (count_none _ _ _ notice_not_command), onEvent_effects.
Qed.

Lemma couldntRead_mentions (uri : Uri) : mentions (couldntRead uri) (Uri_toString uri).
Proof. exists "Couldn't read ", "; check IBM i connection.". reflexivity. Qed.

(** C4. Called without a live session, [readFile] runs the
    [connectToPrevious] command once and then reads once more, as a
    retry; the retry never runs the command, so the whole call runs it
    exactly once and attempts at most one transfer, and when the retry
    still finds no session the call fails with "Not connected to IBM i".
    No call other than [readFile] runs the command. With a session, when
    the transfer answers no content, [readFile] fails with an error whose
    message contains the identifier. *)
Theorem readFile_retries_once :
  (forall (commands : Commands) (w : World) (uri : Uri) (this : QSysFS),
      liveSession (instance w) = false ->
      let w' := reconnected (connectToPrevious commands) in
      let r := readFile commands w uri false this in
      r = (executeConnectToPrevious commands ;;; readFile commands w' uri true) this
      /\ count isExecuteCommand (effects r) = 1
      /\ count isGatewayCall (effects r) <= 1
      /\ (liveSession (instance w') = false ->
          outcome r = Throws (Error notConnected)))
  /\ (forall (commands : Commands) (w : World) (uri : Uri) (this : QSysFS),
         count isExecuteCommand (effects (readFile commands w uri true this)) = 0)
  /\ (forall (w : World) (c : Call) (this : QSysFS),
         isReadFile c = false ->
         count isExecuteCommand (effects (perform w c this)) = 0)
  /\ (forall (commands : Commands) (w : World) (uri : Uri) (retrying : bool)
             (this : QSysFS) (connection : IBMi) (contentApi : IBMiContent),
         getConnection (instance w) = Some connection ->
         getContent (instance w) = Some contentApi ->
         (download w connection contentApi uri (extendedMemberSupport this)).2
         = Returns None ->
         outcome (readFile commands w uri retrying this) = Throws (Error (couldntRead uri))
         /\ count isExecuteCommand (effects (readFile commands w uri retrying this)) = 0
         /\ mentions (couldntRead uri) (Uri_toString uri)).
Proof.
  split; [|split; [|split]].
  - intros commands w uri this Hl. cbv zeta.
    rewrite readFile_first_no_session by assumption.
    split; [reflexivity|].
    unfold bind. rewrite executeConnectToPrevious_returns.
    cbn [outcome effects].
    destruct (executeConnectToPrevious_effects commands this) as (notices & -> & Hn).
    set (retry := readFile commands (reconnected (connectToPrevious commands)) uri true
                    (after (executeConnectToPrevious commands this))).
    destruct (readFile_retry_effects commands (reconnected (connectToPrevious commands))
                uri (after (executeConnectToPrevious commands this))) as [Hcmd Hgw].
    fold retry in Hcmd, Hgw.
    split; [|split].
    + change (ExecuteCommand "code-for-ibmi.connectToPrevious" :: notices)
        with ([ExecuteCommand "code-for-ibmi.connectToPrevious"] ++ notices)%list.
      rewrite !count_app, Hcmd, (count_none _ _ _ notice_not_command Hn).
      reflexivity.
    + change (ExecuteCommand "code-for-ibmi.connectToPrevious" :: notices)
        with ([ExecuteCommand "code-for-ibmi.connectToPrevious"] ++ notices)%list.
      rewrite !count_app, (count_none _ _ _ notice_not_gateway Hn).
      simpl. exact Hgw.
    + intros Hl'. unfold retry. now rewrite readFile_retry_no_session.
  - intros commands w uri this. apply readFile_retry_effects.
  - apply perform_no_command.
  - intros commands w uri retrying this connection contentApi Hc Ha Hd.
    rewrite (readFile_live _ _ _ _ _ connection contentApi Hc Ha). cbv zeta.
    rewrite Hd. split; [reflexivity|]. split; [|apply couldntRead_mentions].
    unfold download. now destruct (extendedMemberSupport this).
Qed.

(** *** Source-date support *)

(** C5, as the code has it. When the source-date support state is
    recomputed with a connection whose configuration enables source
    dates but whose SQL runner is not available, the recomputation
    returns, [extendedMemberSupport] is false and the handler disabled,
    and exactly one notice is raised: the error-level message that the
    remote system does not support SQL (no warning-level notice). From
    the provider it leaves, a [readFile] or [writeFile] in a live session
    uses the plain transfer and raises no notice. *)
Theorem updateMemberSupport_without_sql (inst : Instance) (connection : IBMi)
    (cfg : ConnectionConfig) (this : QSysFS) :
  getConnection inst = Some connection ->
  config connection = Some cfg ->
  enableSourceDates cfg = true ->
  sqlRunnerAvailable connection = false ->
  let r := updateMemberSupport inst this in
  outcome r = Returns tt
  /\ extendedMemberSupport (after r) = false
  /\ enabled (sourceDateHandler (after r)) = false
  /\ effects r = [ShowErrorMessage noSqlError]
  /\ count isNotice (effects r) = 1
  /\ (forall (commands : Commands) (w : World) (uri : Uri) (retrying : bool)
             (cn : IBMi) (contentApi : IBMiContent),
         getConnection (instance w) = Some cn ->
         getContent (instance w) = Some contentApi ->
         effects (readFile commands w uri retrying (after r))
         = [(download w cn contentApi uri false).1]
         /\ count isWithDates (effects (readFile commands w uri retrying (after r))) = 0
         /\ count isNotice (effects (readFile commands w uri retrying (after r))) = 0)
  /\ (forall (w : World) (uri : Uri) (content : list byte) (options : WriteOptions)
             (cn : IBMi) (contentApi : IBMiContent),
         getConnection (instance w) = Some cn ->
         getContent (instance w) = Some contentApi ->
         effects (writeFile w uri content options (after r))
         = [(upload w cn contentApi uri content false).1]
         /\ count isWithDates (effects (writeFile w uri content options (after r))) = 0
         /\ count isNotice (effects (writeFile w uri content options (after r))) = 0).
Proof.
  intros Hc Hcfg Hen Hsql. cbv zeta.
  assert (Hrun : updateMemberSupport inst this
                 = mkRun (Returns tt)
                     (set_sourceDateHandler (setEnabled false)
                        (set_extendedMemberSupport false this))
                     [ShowErrorMessage noSqlError]).
  { unfold updateMemberSupport. run. rewrite Hc. simpl. rewrite Hcfg. simpl.
    rewrite Hen, Hsql. reflexivity. }
  rewrite Hrun. cbn [outcome after effects].
  do 5 (split; [reflexivity|]). split.
  - intros commands w uri retrying cn contentApi Hcn Ha.
    rewrite (readFile_live _ _ _ _ _ cn contentApi Hcn Ha). repeat split.
  - intros w uri content options cn contentApi Hcn Ha.
    rewrite (writeFile_live _ _ _ _ _ cn contentApi Hcn Ha). repeat split.
Qed.

End Properties.

(** * Further properties of the codec *)

Lemma occurrences_app (c : ascii) (a b : string) :
  JsString.occurrences c (a ++ b) = JsString.occurrences c a + JsString.occurrences c b.
Proof.
  induction a as [|c' a IH]; simpl; [reflexivity|]. rewrite IH. lia.
Qed.

Lemma fileTypeOf_File (p : string) :
  fileTypeOf p = File <-> 3 <= JsString.occurrences "/" p.
Proof.
  unfold fileTypeOf. rewrite split_length.
  destruct (3 <? _)%nat eqn:E.
  - apply Nat.ltb_lt in E. split; [lia | reflexivity].
  - apply Nat.ltb_ge in E. split; [discriminate | lia].
Qed.

(** X1. Every identifier [getUriFromPath] builds has a path that starts
    with [/]: a path given with a leading [/] is kept and gets the scheme
    [streamfile], any other path gets a [/] in front and the scheme
    [member]. So building an identifier again from the path of one always
    gives a [streamfile] identifier with that same path, also when the
    first was a [member] identifier. *)
Theorem getUriFromPath_schemes (p : string) (options : option QsysFsOptions) :
  let uri := getUriFromPath p options in
  JsString.startsWith "/" (path uri) = true
  /\ (JsString.startsWith "/" p = true -> scheme uri = "streamfile" /\ path uri = p)
  /\ (JsString.startsWith "/" p = false -> scheme uri = "member" /\ path uri = "/" ++ p)
  /\ forall options' : option QsysFsOptions,
       getUriFromPath (path uri) options'
       = mkUri "streamfile" (path uri) (stringify options').
Proof.
  cbv zeta. unfold getUriFromPath.
  destruct (JsString.startsWith "/" p) eqn:E; cbn [path scheme].
  - rewrite E. repeat split; discriminate.
  - repeat split; discriminate.
Qed.

(** X2. An identifier that [getMemberUri] builds with the scheme [member]
    is one [stat] classifies as a file, whatever the names are; and an
    empty [asp] gives the same identifier as no [asp]. *)
Theorem getMemberUri_is_file :
  (forall (member : IBMiMember) (options : option QsysFsOptions),
      scheme (getMemberUri member options) = "member" ->
      fileTypeOf (path (getMemberUri member options)) = File)
  /\ (forall (library file name extension : string) (options : option QsysFsOptions),
         getMemberUri (mkMember (Some EmptyString) library file name extension) options
         = getMemberUri (mkMember None library file name extension) options).
Proof.
  split; [|reflexivity].
  intros member options. unfold getMemberUri, getUriFromPath.
  destruct (JsString.startsWith "/" _); cbn [scheme path]; [discriminate|].
  intros _. apply fileTypeOf_File.
  rewrite !occurrences_app. simpl. lia.
Qed.

(** X3. The permission of an identifier built by [getUriFromPath] is
    read-only exactly when the global read-only mode is on or the options
    it was built with say [readonly: true]; built without options, or with
    [readonly: false], it follows the global mode alone. *)
Theorem encoded_permission `{Host} (inst : Instance) (p : string)
    (options : option QsysFsOptions) :
  getFilePermission inst (getUriFromPath p options)
  = if globalReadOnly inst
       || match options with
          | Some o => readonly o
          | None => false
          end
    then Some Readonly else None.
Proof.
  assert (Hd : readonly (parseFSOptions (getUriFromPath p options))
               = match options with
                 | Some o => readonly o
                 | None => false
                 end).
  { unfold getUriFromPath. destruct options as [[[|]]|];
      destruct (JsString.startsWith "/" p); vm_compute; reflexivity. }
  unfold getFilePermission, globalReadOnly. now rewrite Hd.
Qed.

(** X4. The classification by depth is monotone: a path that extends a
    path classified as a file, at either end, is classified as a file. *)
Theorem fileTypeOf_extends (p q : string) :
  fileTypeOf p = File ->
  fileTypeOf (p ++ q) = File /\ fileTypeOf (q ++ p) = File.
Proof.
  rewrite !fileTypeOf_File, !occurrences_app. lia.
Qed.

Lemma find_first {A} (f : A -> bool) (l : list A) (x : A) :
  List.find f l = Some x
  <-> exists before behind : list A,
        l = (before ++ x :: behind)%list
        /\ Forall (fun y => f y = false) before
        /\ f x = true.
Proof.
  induction l as [|a l IH]; simpl.
  - split; [discriminate|]. intros (before & behind & Hl & _).
    destruct before; discriminate.
  - destruct (f a) eqn:Ea.
    + split.
      * intros [= ->]. exists [], l. repeat split; [constructor | assumption].
      * intros (before & behind & Hl & Hb & Hx).
        destruct before as [|b before]; simpl in Hl; inversion Hl; subst; [reflexivity|].
        inversion Hb; congruence.
    + rewrite IH. split.
      * intros (before & behind & -> & Hb & Hx).
        exists (a :: before), behind. repeat split; [constructor|]; assumption.
      * intros (before & behind & Hl & Hb & Hx).
        destruct before as [|b before]; simpl in Hl; inversion Hl; subst; [congruence|].
        inversion Hb; subst. now exists before, behind.
Qed.

(** X5. [isProtectedFilter] answers [true] exactly when the filter name
    is a non-empty string, there is a configuration, and the first of its
    object filters with that name is protected; an [undefined] or empty
    name, a missing configuration, an unknown name, and a first match that
    is not protected (whatever later entries of the same name say) all
    give [false]. *)
Theorem isProtectedFilter_first_match (objectFilters : option (list ObjectFilters))
    (filter : option string) :
  isProtectedFilter objectFilters filter = true
  <-> exists (f : string) (before : list ObjectFilters) (x : ObjectFilters)
             (behind : list ObjectFilters),
        filter = Some f
        /\ f ≠ EmptyString
        /\ objectFilters = Some (before ++ x :: behind)%list
        /\ Forall (fun y => filter_name y ≠ f) before
        /\ filter_name x = f
        /\ protected x = true.
Proof.
  unfold isProtectedFilter. split.
  - destruct filter as [f|]; [|discriminate].
    destruct f as [|c f]; [discriminate|]. cbn [QueryString.nonEmpty].
    destruct objectFilters as [filters|]; [|discriminate].
    destruct (List.find _ filters) as [x|] eqn:Ef; [|discriminate].
    intros Hp. apply find_first in Ef as (before & behind & -> & Hb & Hx).
    exists (String c f), before, x, behind. repeat split; try assumption.
    + discriminate.
    + eapply Forall_impl; [exact Hb|]. intros y Hy. simpl in Hy.
      now apply String.eqb_neq.
    + now apply String.eqb_eq.
  - intros (f & before & x & behind & -> & Hf & -> & Hb & Hx & Hp).
    destruct f as [|c f]; [congruence|]. cbn [QueryString.nonEmpty].
    assert (Ef : List.find (fun y => String.eqb (filter_name y) (String c f))
                   (before ++ x :: behind) = Some x).
    { apply find_first. exists before, behind. repeat split.
      - eapply Forall_impl; [exact Hb|]. intros y Hy. now apply String.eqb_neq.
      - now apply String.eqb_eq. }
    now rewrite Ef.
Qed.

(** * Further properties of the provider *)

Section FurtherProperties.
Context `{Host}.

(** ** [stat] *)

Lemma stat_frame (w : World) (uri : Uri) (this : QSysFS) :
  sourceDateHandler (after (stat w uri this)) = sourceDateHandler this
  /\ extendedMemberSupport (after (stat w uri this)) = extendedMemberSupport this
  /\ (forall p : string, p ≠ path uri ->
        statCache (after (stat w uri this)) !! p = statCache this !! p)
  /\ (effects (stat w uri this) = []
      \/ effects (stat w uri this) = [attributeQuery (path uri)]).
Proof.
  assert (Hins : forall (v : option FileStat) (p : string), p ≠ path uri ->
             FileStatCache_set (inr (path uri)) v (statCache this) !! p
             = statCache this !! p).
  { intros v p Hne. unfold FileStatCache_set. simpl. now apply lookup_insert_ne. }
  destruct (statCache this !! path uri) as [[st|]|] eqn:Hc.
  - rewrite (stat_cached _ _ _ _ Hc). repeat split. now left.
  - rewrite (stat_cached_absent _ _ _ Hc). repeat split. now left.
  - destruct (getContent (instance w)) as [content|] eqn:Hs.
    + destruct (getAttributes content (parseQSysPath (path uri))) as [[attrs|]|e] eqn:Ha.
      * rewrite (stat_attributes _ _ _ _ _ Hc Hs Ha). cbn [after effects].
        repeat split; [apply Hins | now right].
      * rewrite (stat_no_attributes _ _ _ _ Hc Hs Ha). cbn [after effects].
        repeat split; [apply Hins | now right].
      * rewrite (stat_query_throws _ _ _ _ _ Hc Hs Ha). repeat split. now right.
    + rewrite (stat_no_content _ _ _ Hc Hs). cbn [after effects].
      repeat split; [apply Hins | now left].
Qed.

(** X6. [stat] touches nothing but the stat-cache entry of its own path:
    every other entry, the source-date handler and
    [extendedMemberSupport] are as before, and the only call it can make
    is one attribute query for its path. When the entry is bound (metadata
    or the negative marker) it changes nothing at all and makes no call. *)
Theorem stat_touches_own_entry (w : World) (uri : Uri) (this : QSysFS) :
  let r := stat w uri this in
  sourceDateHandler (after r) = sourceDateHandler this
  /\ extendedMemberSupport (after r) = extendedMemberSupport this
  /\ (forall p : string, p ≠ path uri -> statCache (after r) !! p = statCache this !! p)
  /\ (effects r = [] \/ effects r = [attributeQuery (path uri)])
  /\ (is_Some (statCache this !! path uri) -> after r = this /\ effects r = []).
Proof.
  cbv zeta. destruct (stat_frame w uri this) as (Hh & Hs & Hf & He).
  do 4 (split; [assumption|]).
  intros [[st|] Hc].
  - now rewrite (stat_cached _ _ _ _ Hc).
  - now rewrite (stat_cached_absent _ _ _ Hc).
Qed.

(** X7. When the path is unbound, a session exists and the attribute
    query answers a record, [stat] returns the parsed times and size with
    the type of the path and the permission of the identifier, after one
    attribute query, and binds them to the path: as long as no call clears
    the entry, [stat] of any identifier with that path, in any world,
    returns that same metadata without a call, so also the permission
    computed for the first identifier, whatever the options of the later
    one and the read-only mode then. *)
Theorem stat_positive_cache (w : World) (content : IBMiContent) (uri : Uri)
    (this : QSysFS) (attributes : Attributes) :
  statCache this !! path uri = None ->
  getContent (instance w) = Some content ->
  getAttributes content (parseQSysPath (path uri)) = Returns (Some attributes) ->
  let st := {| ctime := parseAttrDate (CREATE_TIME attributes);
               mtime := parseAttrDate (MODIFY_TIME attributes);
               size := Number (DATA_SIZE attributes);
               type := fileTypeOf (path uri);
               permissions := getFilePermission (instance w) uri |} in
  let r := stat w uri this in
  outcome r = Returns st
  /\ effects r = [attributeQuery (path uri)]
  /\ forall (calls : list (World * Call)) (w' : World) (uri' : Uri),
       noneClears (path uri) calls ->
       path uri' = path uri ->
       let r' := stat w' uri' (performAll calls (after r)) in
       outcome r' = Returns st /\ effects r' = [].
Proof.
  intros Hc Hs Ha. cbv zeta. rewrite (stat_attributes _ _ _ _ _ Hc Hs Ha).
  cbn [outcome after effects]. split; [reflexivity|]. split; [reflexivity|].
  intros calls w' uri' Hcalls Hp.
  rewrite (stat_cached w' uri' _
             {| ctime := parseAttrDate (CREATE_TIME attributes);
                mtime := parseAttrDate (MODIFY_TIME attributes);
                size := Number (DATA_SIZE attributes);
                type := fileTypeOf (path uri);
                permissions := getFilePermission (instance w) uri |}).
  - now split.
  - rewrite Hp. apply performAll_keeps_entry; [|assumption].
    apply lookup_insert_eq.
Qed.

(** X8. When the attribute query itself throws, [stat] throws the same
    exception and caches nothing: the provider is exactly as before, so
    the next [stat] of the path in a session asks the gateway again. *)
Theorem stat_query_failure (w : World) (content : IBMiContent) (uri : Uri)
    (this : QSysFS) (e : Exception) :
  statCache this !! path uri = None ->
  getContent (instance w) = Some content ->
  getAttributes content (parseQSysPath (path uri)) = Throws e ->
  let r := stat w uri this in
  outcome r = Throws e
  /\ after r = this
  /\ effects r = [attributeQuery (path uri)]
  /\ forall (w' : World) (content' : IBMiContent),
       getContent (instance w') = Some content' ->
       effects (stat w' uri (after r)) = [attributeQuery (path uri)].
Proof.
  intros Hc Hs Ha. cbv zeta. rewrite (stat_query_throws _ _ _ _ _ Hc Hs Ha).
  cbn [outcome after effects]. do 3 (split; [reflexivity|]).
  intros w' content' Hs'. now apply stat_unbound_effects with content'.
Qed.

(** ** [delete] *)

(** X9. [delete] always throws "Method not implemented.", but only after
    unbinding the stat-cache entry of the path: the other entries, the
    handler and [extendedMemberSupport] are as before, no call leaves the
    provider, and the next [stat] of the path in a session asks the
    gateway. *)
Theorem delete_invalidates (uri : Uri) (recursive : bool) (this : QSysFS) :
  let r := delete uri recursive this in
  outcome r = Throws (Error notImplemented)
  /\ effects r = []
  /\ statCache (after r) !! path uri = None
  /\ (forall p : string, p ≠ path uri -> statCache (after r) !! p = statCache this !! p)
  /\ sourceDateHandler (after r) = sourceDateHandler this
  /\ extendedMemberSupport (after r) = extendedMemberSupport this
  /\ forall (w : World) (content : IBMiContent),
       getContent (instance w) = Some content ->
       effects (stat w uri (after r)) = [attributeQuery (path uri)].
Proof.
  cbv zeta. rewrite delete_run. cbn [outcome after effects].
  assert (Hgone : statCache (set_statCache (base.delete (path uri)) this) !! path uri = None)
    by apply lookup_delete_eq.
  do 2 (split; [reflexivity|]). split; [exact Hgone|].
  split; [|do 2 (split; [reflexivity|])].
  - intros p Hne. simpl. now apply lookup_delete_ne.
  - intros w content Hs. now apply stat_unbound_effects with content.
Qed.

(** ** [updateMemberSupport] *)

Lemma updateMemberSupport_after (inst : Instance) (this : QSysFS) :
  after (updateMemberSupport inst this)
  = {| statCache := statCache this;
       sourceDateHandler :=
         {| enabled := sourceDatesAvailable inst;
            mode := recomputedMode inst (mode (sourceDateHandler this)) |};
       extendedMemberSupport := sourceDatesAvailable inst |}.
Proof.
  unfold updateMemberSupport, sourceDatesAvailable, recomputedMode.
  unfold bind, ret, call, read, update; simpl.
  destruct (getConnection inst) as [c|]; simpl; [|reflexivity].
  destruct (config c) as [cfg|]; simpl; [|reflexivity].
  destruct (enableSourceDates cfg), (sqlRunnerAvailable c); simpl; try reflexivity.
  destruct (invalid (getEncoding c)); reflexivity.
Qed.

Lemma updateMemberSupport_one_notice (inst : Instance) (this : QSysFS) :
  List.length (effects (updateMemberSupport inst this)) <= 1.
Proof.
  unfold updateMemberSupport. unfold bind, ret, call, read, update; simpl.
  destruct (getConnection inst) as [c|]; simpl; [|lia].
  destruct (config c) as [cfg|]; simpl; [|lia].
  destruct (enableSourceDates cfg), (sqlRunnerAvailable c); simpl; try lia.
  destruct (invalid (getEncoding c)); simpl; lia.
Qed.

(** X10. [updateMemberSupport] always returns, raises at most one notice
    and leaves the stat cache alone. What it leaves does not depend on the
    support state before: [extendedMemberSupport] and the handler's
    [enabled] are both true exactly when there is a connection whose
    configuration enables source dates and whose SQL runner is available,
    and the handler's mode is then the configured one and otherwise the
    previous one. Recomputing a second time on the same [instance] changes
    nothing. *)
Theorem updateMemberSupport_recomputes (inst : Instance) (this : QSysFS) :
  let r := updateMemberSupport inst this in
  outcome r = Returns tt
  /\ List.length (effects r) <= 1
  /\ count isNotice (effects r) = List.length (effects r)
  /\ statCache (after r) = statCache this
  /\ extendedMemberSupport (after r) = sourceDatesAvailable inst
  /\ enabled (sourceDateHandler (after r)) = sourceDatesAvailable inst
  /\ mode (sourceDateHandler (after r))
     = recomputedMode inst (mode (sourceDateHandler this))
  /\ after (updateMemberSupport inst (after r)) = after r.
Proof.
  cbv zeta. split; [apply updateMemberSupport_returns|].
  split; [apply updateMemberSupport_one_notice|]. split.
  - pose proof (updateMemberSupport_effects inst this) as Hall. unfold count.
    induction Hall as [|e l He _ IH]; simpl; [reflexivity|]. rewrite He. simpl.
    now rewrite IH.
  - rewrite !updateMemberSupport_after. cbn [statCache sourceDateHandler
      extendedMemberSupport enabled mode]. repeat split.
    f_equal. f_equal. unfold recomputedMode.
    destruct (getConnection inst) as [c|]; [|reflexivity].
    destruct (config c) as [cfg|]; [|reflexivity].
    now destruct (enableSourceDates cfg && sqlRunnerAvailable c).
Qed.

(** X11. With a connection whose configuration enables source dates and
    whose SQL runner is available, [updateMemberSupport] turns the support
    on, enables the handler in the configured mode, and raises one
    warning-level notice exactly when the encoding is invalid (CCSID
    65535) and no notice otherwise, never an error-level one. From the
    provider it leaves, [readFile] and [writeFile] in a live session use
    the transfers with dates. *)
Theorem updateMemberSupport_enables (inst : Instance) (connection : IBMi)
    (cfg : ConnectionConfig) (this : QSysFS) :
  getConnection inst = Some connection ->
  config connection = Some cfg ->
  enableSourceDates cfg = true ->
  sqlRunnerAvailable connection = true ->
  let r := updateMemberSupport inst this in
  extendedMemberSupport (after r) = true
  /\ sourceDateHandler (after r) = {| enabled := true; mode := sourceDateMode cfg |}
  /\ effects r
     = (if invalid (getEncoding connection) then [ShowWarningMessage ccsidWarning] else [])
  /\ count isErrorNotice (effects r) = 0
  /\ (forall (commands : Commands) (w : World) (uri : Uri) (retrying : bool)
             (cn : IBMi) (contentApi : IBMiContent),
         getConnection (instance w) = Some cn ->
         getContent (instance w) = Some contentApi ->
         effects (readFile commands w uri retrying (after r))
         = [(download w cn contentApi uri true).1])
  /\ (forall (w : World) (uri : Uri) (content : list byte) (options : WriteOptions)
             (cn : IBMi) (contentApi : IBMiContent),
         getConnection (instance w) = Some cn ->
         getContent (instance w) = Some contentApi ->
         effects (writeFile w uri content options (after r))
         = [(upload w cn contentApi uri content true).1]).
Proof.
  intros Hc Hcfg Hen Hsql. cbv zeta.
  assert (Hav : sourceDatesAvailable inst = true).
  { unfold sourceDatesAvailable. now rewrite Hc, Hcfg, Hen, Hsql. }
  assert (Hmode : forall m, recomputedMode inst m = sourceDateMode cfg).
  { intros m. unfold recomputedMode. now rewrite Hc, Hcfg, Hen, Hsql. }
  assert (Heff : effects (updateMemberSupport inst this)
                 = if invalid (getEncoding connection)
                   then [ShowWarningMessage ccsidWarning] else []).
  { unfold updateMemberSupport. unfold bind, ret, call, read, update; simpl.
    rewrite Hc. simpl. rewrite Hcfg. simpl. rewrite Hen, Hsql. simpl.
    now destruct (invalid (getEncoding connection)). }
  rewrite updateMemberSupport_after, Hav, Hmode, Heff.
  cbn [extendedMemberSupport sourceDateHandler].
  do 3 (split; [reflexivity|]). split; [now destruct (invalid _)|]. split.
  - intros commands w uri retrying cn contentApi Hcn Ha.
    now rewrite (readFile_live _ _ _ _ _ cn contentApi Hcn Ha).
  - intros w uri content options cn contentApi Hcn Ha.
    now rewrite (writeFile_live _ _ _ _ _ cn contentApi Hcn Ha).
Qed.

(** ** Invariants of the provider *)

Lemma updateMemberSupport_mirrored (inst : Instance) (this : QSysFS) :
  mirrored (after (updateMemberSupport inst this)).
Proof. unfold mirrored. now rewrite updateMemberSupport_after. Qed.

Lemma onEvent_mirrored (inst : Instance) (ev : InstanceEvent) (this : QSysFS) :
  mirrored (after (onEvent inst ev this)).
Proof.
  destruct ev; simpl; [apply updateMemberSupport_mirrored|].
  unfold bind. rewrite updateMemberSupport_returns. cbn [after update].
  apply (updateMemberSupport_mirrored inst this).
Qed.

Lemma dispatch_mirrored (events : list (Instance * InstanceEvent)) :
  forall this : QSysFS, mirrored this -> mirrored (after (dispatch events this)).
Proof.
  induction events as [|[inst ev] rest IH]; intros this Hm; simpl; [assumption|].
  unfold bind. rewrite onEvent_returns. cbn [after]. apply IH, onEvent_mirrored.
Qed.

Lemma set_statCache_mirrored (f : gmap string (option FileStat) -> gmap string (option FileStat))
    (this : QSysFS) :
  mirrored this -> mirrored (set_statCache f this).
Proof. intros Hm. exact Hm. Qed.

Lemma perform_mirrored (w : World) (c : Call) (this : QSysFS) :
  mirrored this -> mirrored (after (perform w c this)).
Proof.
  intros Hm.
  destruct c as [uri|commands uri|uri content options|oldUri newUri options
                |uri recursive| |doc|u|ev]; simpl perform.
  - rewrite after_forget. destruct (stat_frame w uri this) as (Hh & Hs & _).
    unfold mirrored. now rewrite Hh, Hs.
  - rewrite after_forget. destruct (liveSession (instance w)) eqn:Hl.
    + destruct (liveSession_true _ Hl) as (cn & a & Hc & Ha).
      now rewrite (readFile_live _ _ _ _ _ cn a Hc Ha).
    + rewrite readFile_first_no_session by assumption.
      unfold bind at 1. rewrite executeConnectToPrevious_returns.
      cbn [after]. rewrite readFile_retry_after.
      unfold executeConnectToPrevious, bind, call. cbn [outcome after].
      now apply dispatch_mirrored.
  - rewrite writeFile_after. now apply set_statCache_mirrored.
  - rewrite rename_run. exact Hm.
  - rewrite delete_run. exact Hm.
  - apply updateMemberSupport_mirrored.
  - exact Hm.
  - exact Hm.
  - apply onEvent_mirrored.
Qed.

(** X12. On every provider reached from a fresh one by any sequence of
    calls (filesystem calls, configuration changes, closed documents, the
    clear command, lifecycle events), in any worlds, the source-date
    handler is enabled exactly when [extendedMemberSupport] is true. *)
Theorem handler_mirrors_support (calls : list (World * Call)) :
  mirrored (performAll calls new_QSysFS).
Proof.
  assert (Hgen : forall this, mirrored this -> mirrored (performAll calls this)).
  { induction calls as [|[w c] rest IH]; intros this Hm; simpl; [assumption|].
    apply IH. now apply perform_mirrored. }
  apply Hgen. reflexivity.
Qed.

Lemma perform_binds (w : World) (c : Call) (this : QSysFS) (p : string) :
  is_Some (statCache (after (perform w c this)) !! p) ->
  is_Some (statCache this !! p) \/ exists uri, c = Stat uri /\ path uri = p.
Proof.
  intros Hb.
  destruct c as [uri|commands uri|uri content options|oldUri newUri options
                |uri recursive| |doc|[u|]|ev]; simpl perform in Hb.
  - rewrite after_forget in Hb. destruct (decide (p = path uri)) as [->|Hne].
    + right. now exists uri.
    + left. destruct (stat_frame w uri this) as (_ & _ & Hf & _).
      now rewrite <- (Hf p Hne).
  - left. rewrite after_forget in Hb. destruct (liveSession (instance w)) eqn:Hl.
    + destruct (liveSession_true _ Hl) as (cn & a & Hc & Ha).
      now rewrite (readFile_live _ _ _ _ _ cn a Hc Ha) in Hb.
    + rewrite readFile_first_statCache in Hb by assumption.
      destruct (existsb _ _); [|assumption].
      rewrite lookup_empty in Hb. now destruct Hb.
  - left. rewrite writeFile_after in Hb. simpl in Hb.
    destruct (decide (path uri = p)) as [<-|Hne].
    + rewrite lookup_delete_eq in Hb. now destruct Hb.
    + now rewrite lookup_delete_ne in Hb.
  - left. rewrite rename_run in Hb. simpl in Hb.
    destruct (decide (path newUri = p)) as [<-|Hn].
    + rewrite lookup_delete_eq in Hb. now destruct Hb.
    + rewrite lookup_delete_ne in Hb by assumption.
      destruct (decide (path oldUri = p)) as [<-|Ho].
      * rewrite lookup_delete_eq in Hb. now destruct Hb.
      * now rewrite lookup_delete_ne in Hb.
  - left. rewrite delete_run in Hb. simpl in Hb.
    destruct (decide (path uri = p)) as [<-|Hne].
    + rewrite lookup_delete_eq in Hb. now destruct Hb.
    + now rewrite lookup_delete_ne in Hb.
  - left. now rewrite updateMemberSupport_statCache in Hb.
  - left. simpl in Hb. destruct (decide (path doc = p)) as [<-|Hne].
    + rewrite lookup_delete_eq in Hb. now destruct Hb.
    + now rewrite lookup_delete_ne in Hb.
  - left. simpl in Hb. destruct (decide (toPath u = p)) as [<-|Hne].
    + rewrite lookup_delete_eq in Hb. now destruct Hb.
    + now rewrite lookup_delete_ne in Hb.
  - left. simpl in Hb. rewrite lookup_empty in Hb. now destruct Hb.
  - left. rewrite onEvent_statCache in Hb.
    destruct (isDisconnected ev); [|assumption].
    rewrite lookup_empty in Hb. now destruct Hb.
Qed.

(** X13. Only [stat] binds stat-cache entries, and only for its own
    path: on every provider reached from a fresh one, each bound path
    (metadata or negative marker) is the path of one of the [stat] calls
    made. In particular [readFile] and [writeFile] never fill the
    cache. *)
Theorem cached_paths_were_stated (calls : list (World * Call)) (p : string) :
  is_Some (statCache (performAll calls new_QSysFS) !! p) ->
  In p (statPaths calls).
Proof.
  assert (Hgen : forall this,
             is_Some (statCache (performAll calls this) !! p) ->
             is_Some (statCache this !! p) \/ In p (statPaths calls)).
  { induction calls as [|[w c] rest IH]; intros this Hb; simpl in *; [now left|].
    destruct (IH _ Hb) as [Hprev|Hin].
    - destruct (perform_binds w c this p Hprev) as [Hthis|(uri & -> & <-)].
      + now left.
      + right. simpl. now left.
    - right. unfold statPaths in *. simpl.
      destruct c; simpl; try assumption. now right. }
  intros Hb. destruct (Hgen new_QSysFS Hb) as [Hnew|Hin]; [|assumption].
  simpl in Hnew. rewrite lookup_empty in Hnew. now destruct Hnew.
Qed.

(** ** Lifecycle *)

(** X14. The handler of the [disconnected] event returns after
    recomputing the support and emptying the stat cache, whatever it held:
    when the connection is gone the support is off, the handler disabled
    and no notice raised, and a [stat] of any path without a session then
    returns the placeholder of that path, never earlier metadata. *)
Theorem disconnected_resets (inst : Instance) (this : QSysFS) :
  let r := onEvent inst disconnected this in
  outcome r = Returns tt
  /\ statCache (after r) = ∅
  /\ extendedMemberSupport (after r) = sourceDatesAvailable inst
  /\ (getConnection inst = None ->
      extendedMemberSupport (after r) = false
      /\ enabled (sourceDateHandler (after r)) = false
      /\ effects r = [])
  /\ forall (w : World) (uri : Uri),
       getContent (instance w) = None ->
       outcome (stat w uri (after r)) = Returns (placeholder (instance w) uri).
Proof.
  cbv zeta.
  assert (Hafter : after (onEvent inst disconnected this)
                   = set_statCache (FileStatCache_clear None)
                       (after (updateMemberSupport inst this))).
  { simpl. unfold bind. now rewrite updateMemberSupport_returns. }
  assert (Heff : effects (onEvent inst disconnected this)
                 = effects (updateMemberSupport inst this)).
  { simpl. unfold bind. rewrite updateMemberSupport_returns. simpl.
    apply app_nil_r. }
  split; [apply onEvent_returns|]. rewrite Hafter, Heff, updateMemberSupport_after.
  cbn [statCache set_statCache FileStatCache_clear extendedMemberSupport
       sourceDateHandler enabled].
  do 2 (split; [reflexivity|]). split.
  - intros Hc. unfold sourceDatesAvailable, updateMemberSupport. rewrite Hc.
    repeat split.
  - intros w uri Hs. rewrite stat_no_content; [reflexivity | apply lookup_empty | assumption].
Qed.

(** ** [readFile] and [writeFile] in a live session *)

(** X15. In a live session [readFile] leaves the provider exactly as it
    was (it neither fills nor clears the stat cache) and makes exactly one
    call, the transfer: the one with dates exactly when
    [extendedMemberSupport] is true. Content comes back as its UTF-8
    bytes, an exception of the transfer is thrown on unchanged, and the
    [retrying] flag makes no difference. *)
Theorem readFile_live_session (commands : Commands) (w : World) (uri : Uri)
    (retrying : bool) (this : QSysFS) (connection : IBMi) (contentApi : IBMiContent) :
  getConnection (instance w) = Some connection ->
  getContent (instance w) = Some contentApi ->
  let d := download w connection contentApi uri (extendedMemberSupport this) in
  let r := readFile commands w uri retrying this in
  after r = this
  /\ effects r = [d.1]
  /\ isWithDates d.1 = extendedMemberSupport this
  /\ count isGatewayCall (effects r) = 1
  /\ (forall memberContent : string,
         d.2 = Returns (Some memberContent) ->
         outcome r = Returns (Buffer_from_utf8 memberContent))
  /\ (forall e : Exception, d.2 = Throws e -> outcome r = Throws e)
  /\ readFile commands w uri (negb retrying) this = r.
Proof.
  intros Hc Ha. cbv zeta.
  rewrite !(readFile_live _ _ _ _ _ connection contentApi Hc Ha).
  cbn [after effects outcome]. do 2 (split; [reflexivity|]).
  split; [unfold download; now destruct (extendedMemberSupport this)|].
  split; [unfold download; now destruct (extendedMemberSupport this)|].
  split; [|split; [|reflexivity]].
  - intros memberContent ->. reflexivity.
  - intros e ->. reflexivity.
Qed.

(** X16. In a live session [writeFile] makes exactly one call, the
    transfer, and ends as the transfer ends: it returns when the upload
    returns and throws what the upload throws. The transfer is the one
    with dates, given the content as a string, exactly when
    [extendedMemberSupport] is true, and the plain one, given the bytes,
    otherwise. Besides the cleared entry the provider is as before. *)
Theorem writeFile_live_session (w : World) (uri : Uri) (content : list byte)
    (options : WriteOptions) (this : QSysFS) (connection : IBMi)
    (contentApi : IBMiContent) :
  getConnection (instance w) = Some connection ->
  getContent (instance w) = Some contentApi ->
  let u := upload w connection contentApi uri content (extendedMemberSupport this) in
  let r := writeFile w uri content options this in
  outcome r = u.2
  /\ effects r = [u.1]
  /\ isWithDates u.1 = extendedMemberSupport this
  /\ count isGatewayCall (effects r) = 1
  /\ after r = set_statCache (base.delete (path uri)) this.
Proof.
  intros Hc Ha. cbv zeta.
  rewrite (writeFile_live _ _ _ _ _ connection contentApi Hc Ha).
  cbn [after effects outcome]. do 2 (split; [reflexivity|]).
  split; [unfold upload; now destruct (extendedMemberSupport this)|].
  split; [unfold upload; now destruct (extendedMemberSupport this)|].
  reflexivity.
Qed.


(** ** [rename] *)

(** X18. What [rename] leaves does not depend on the order of its two
    identifiers nor on its options, and renaming a second time changes
    nothing more; with the same identifier twice it clears that one
    entry. *)
Theorem rename_symmetric (oldUri newUri : Uri) (options options' : bool)
    (this : QSysFS) :
  after (rename oldUri newUri options this) = after (rename newUri oldUri options' this)
  /\ after (rename oldUri newUri options' (after (rename oldUri newUri options this)))
     = after (rename oldUri newUri options this)
  /\ after (rename oldUri oldUri options this)
     = set_statCache (base.delete (path oldUri)) this.
Proof.
  rewrite !rename_run. cbn [after]. unfold set_statCache. cbn [statCache
    sourceDateHandler extendedMemberSupport].
  split; [|split]; f_equal; apply map_eq; intros k; rewrite !lookup_delete;
    repeat case_decide; congruence.
Qed.

End FurtherProperties.

(** * The properties on the sample host *)

Import Sample.

Example readFile_reconnects :
  outcome (readFile reconnects offline memberUri false new_QSysFS)
  = Returns (list_byte_of_string memberContent).
Proof. vm_compute. reflexivity. Qed.

Example stat_member :
  outcome (stat online memberUri new_QSysFS)
  = Returns {| ctime := 1700000000000%Z; mtime := 1700000360000%Z; size := 10%Z;
               type := File; permissions := None |}.
Proof. vm_compute. reflexivity. Qed.

(** [stat] of [/MYLIB/MYFILE] with a session, on a provider that cached
    the path's placeholder while offline: a directory. *)
Lemma stat_classifies_by_depth_witness :
  let calls := [(online, Stat missingUri); (offline, Stat fileUri)] in
  outcome (stat online fileUri (performAll calls new_QSysFS))
  = Returns (placeholder (instance offline) fileUri)
  /\ type (placeholder (instance offline) fileUri) = fileTypeOf (path fileUri)
  /\ fileTypeOf (path fileUri) = Directory.
Proof.
  cbv zeta.
  assert (Hr : outcome (stat online fileUri
                          (performAll [(online, Stat missingUri); (offline, Stat fileUri)]
                             new_QSysFS))
               = Returns (placeholder (instance offline) fileUri))
    by (vm_compute; reflexivity).
  split; [exact Hr|]. split; [|reflexivity].
  exact (proj1 stat_classifies_by_depth _ online fileUri _ Hr).
Defined.

(** A member the gateway does not know: not found, and not asked for
    again. *)
Lemma stat_negative_cache_witness :
  statCache new_QSysFS !! path missingUri = None
  /\ getContent (instance online) = Some gateway
  /\ getAttributes gateway (parseQSysPath (path missingUri)) = Returns None
  /\ outcome (stat online missingUri new_QSysFS) = Throws (FileNotFound missingUri)
  /\ effects (stat online missingUri
                (performAll [(online, Stat memberUri)]
                   (after (stat online missingUri new_QSysFS)))) = [].
Proof.
  assert (H1 : statCache new_QSysFS !! path missingUri = None) by reflexivity.
  assert (H2 : getContent (instance online) = Some gateway) by reflexivity.
  assert (H3 : getAttributes gateway (parseQSysPath (path missingUri)) = Returns None)
    by reflexivity.
  destruct (stat_negative_cache online gateway missingUri new_QSysFS H1 H2 H3)
    as (Ho & _ & _ & Hlater).
  do 3 (split; [assumption|]). split; [exact Ho|].
  apply (Hlater [(online, Stat memberUri)] online).
  constructor; [reflexivity | constructor].
Defined.

(** A write without a session, on a provider that has the member's
    metadata cached: it fails, and the entry is gone. *)
Lemma writeFile_invalidates_witness :
  let cached := after (stat online memberUri new_QSysFS) in
  let r := writeFile offline memberUri [] (mkWriteOptions true true) cached in
  liveSession (instance offline) = false
  /\ is_Some (statCache cached !! path memberUri)
  /\ statCache (after r) !! path memberUri = None
  /\ outcome r = Throws (Error notConnected).
Proof.
  cbv zeta.
  assert (Hl : liveSession (instance offline) = false) by reflexivity.
  destruct (writeFile_invalidates offline memberUri [] (mkWriteOptions true true)
              (after (stat online memberUri new_QSysFS))) as (Hgone & _ & Hfail & _).
  split; [exact Hl|]. split; [vm_compute; eauto|]. split; [exact Hgone|].
  exact (proj1 (Hfail Hl)).
Defined.

(** A read without a session, when the command finds no connection. *)
Lemma readFile_retries_once_witness :
  liveSession (instance offline) = false
  /\ count isExecuteCommand
       (effects (readFile staysOffline offline memberUri false new_QSysFS)) = 1
  /\ outcome (readFile staysOffline offline memberUri false new_QSysFS)
     = Throws (Error notConnected).
Proof.
  assert (Hl : liveSession (instance offline) = false) by reflexivity.
  destruct (proj1 readFile_retries_once staysOffline offline memberUri new_QSysFS Hl)
    as (_ & Hone & _ & Hfail).
  split; [exact Hl|]. split; [exact Hone|]. exact (Hfail Hl).
Defined.

(** Source dates enabled on a system without SQL. *)
Lemma updateMemberSupport_without_sql_witness :
  getConnection (instance online) = Some connection
  /\ config connection = Some configuration
  /\ enableSourceDates configuration = true
  /\ sqlRunnerAvailable connection = false
  /\ effects (updateMemberSupport (instance online) new_QSysFS)
     = [ShowErrorMessage noSqlError]
  /\ extendedMemberSupport (after (updateMemberSupport (instance online) new_QSysFS))
     = false.
Proof.
  assert (H1 : getConnection (instance online) = Some connection) by reflexivity.
  assert (H2 : config connection = Some configuration) by reflexivity.
  assert (H3 : enableSourceDates configuration = true) by reflexivity.
  assert (H4 : sqlRunnerAvailable connection = false) by reflexivity.
  destruct (updateMemberSupport_without_sql (instance online) connection configuration
              new_QSysFS H1 H2 H3 H4) as (_ & Hoff & _ & Hnotice & _).
  do 4 (split; [assumption|]). split; [exact Hnotice | exact Hoff].
Defined.

(** The recomputation raises an error-level notice where C5 as stated
    asks for a warning-level one: on the sample connection (source dates
    enabled, no SQL) the calls made are the one [showErrorMessage], and
    the number of warning-level notices is not 1. *)
Lemma updateMemberSupport_raises_no_warning :
  getConnection (instance online) = Some connection
  /\ config connection = Some configuration
  /\ enableSourceDates configuration = true
  /\ sqlRunnerAvailable connection = false
  /\ effects (updateMemberSupport (instance online) new_QSysFS)
     = [ShowErrorMessage noSqlError]
  /\ count isWarningNotice (effects (updateMemberSupport (instance online) new_QSysFS)) ≠ 1.
Proof.
  repeat split; vm_compute; discriminate.
Qed.

(** An identifier with a malformed [readonly] value. *)
Lemma options_roundtrip_witness :
  let uri := mkUri "member" "/MYLIB/MYFILE/MEMBER1.RPGLE" "readonly=yes" in
  JsString.occurrences "&" "yes" = 0
  /\ QueryString.unescape "yes" ≠ "true"
  /\ readonly (parseFSOptions uri) = false.
Proof.
  cbv zeta.
  assert (H1 : JsString.occurrences "&" "yes" = 0) by reflexivity.
  assert (H2 : QueryString.unescape "yes" ≠ "true") by (vm_compute; discriminate).
  split; [exact H1|]. split; [exact H2|].
  exact (proj2 (proj2 (proj2 options_roundtrip))
           (mkUri "member" "/MYLIB/MYFILE/MEMBER1.RPGLE" "readonly=yes") "yes"
           eq_refl H1 H2).
Defined.

(** A rename of the sample member, then a [stat] with a session. *)
Lemma rename_clears_both_witness :
  let cached := after (stat online memberUri new_QSysFS) in
  let r := rename memberUri missingUri false cached in
  getContent (instance online) = Some gateway
  /\ is_Some (statCache cached !! path memberUri)
  /\ statCache (after r) !! path memberUri = None
  /\ effects (stat online memberUri (after r)) = [attributeQuery (path memberUri)].
Proof.
  cbv zeta.
  assert (H1 : getContent (instance online) = Some gateway) by reflexivity.
  destruct (rename_clears_both memberUri missingUri false
              (after (stat online memberUri new_QSysFS)))
    as (_ & Hold & _ & _ & _ & _ & _ & _ & Hfresh).
  split; [exact H1|]. split; [vm_compute; eauto|]. split; [exact Hold|].
  exact (proj1 (Hfresh online gateway H1)).
Defined.

(** [stat] of the sample member without a session. *)
Lemma stat_without_session_witness :
  statCache new_QSysFS !! path memberUri = None
  /\ getContent (instance offline) = None
  /\ exists st : FileStat,
       outcome (stat offline memberUri new_QSysFS) = Returns st
       /\ ctime st = 0%Z /\ mtime st = 0%Z /\ size st = 0%Z /\ type st = File.
Proof.
  assert (H1 : statCache new_QSysFS !! path memberUri = None) by reflexivity.
  assert (H2 : getContent (instance offline) = None) by reflexivity.
  destruct (stat_without_session offline memberUri new_QSysFS H1 H2)
    as (st & Ho & _ & Hc & Hm & Hs & Ht & _).
  do 2 (split; [assumption|]). exists st.
  split; [exact Ho|]. split; [exact Hc|]. split; [exact Hm|]. split; [exact Hs|].
  rewrite Ht. reflexivity.
Defined.

(** The placeholder cached while offline is what [stat] returns once the
    session is back, after a [stat] of another path and a [readFile]. *)
Lemma placeholder_is_cached_witness :
  let calls := [(online, Stat missingUri); (online, ReadFile reconnects memberUri)] in
  statCache new_QSysFS !! path memberUri = None
  /\ getContent (instance offline) = None
  /\ noneClears (path memberUri) calls
  /\ outcome (stat online memberUri
                (performAll calls (after (stat offline memberUri new_QSysFS))))
     = Returns (placeholder (instance offline) memberUri).
Proof.
  cbv zeta.
  assert (H1 : statCache new_QSysFS !! path memberUri = None) by reflexivity.
  assert (H2 : getContent (instance offline) = None) by reflexivity.
  assert (H3 : noneClears (path memberUri)
                 [(online, Stat missingUri); (online, ReadFile reconnects memberUri)]).
  { constructor; [reflexivity|]. constructor; [reflexivity | constructor]. }
  destruct (placeholder_is_cached offline memberUri new_QSysFS H1 H2) as (_ & _ & Hlater).
  do 3 (split; [assumption|]).
  exact (proj1 (Hlater _ online H3)).
Defined.

(** A QSYS path: the scheme is [member] and the path gets its [/]. *)
Lemma getUriFromPath_schemes_witness :
  JsString.startsWith "/" "MYLIB/MYFILE/MEMBER1.RPGLE" = false
  /\ scheme memberUri = "member"
  /\ path memberUri = "/MYLIB/MYFILE/MEMBER1.RPGLE".
Proof.
  assert (H1 : JsString.startsWith "/" "MYLIB/MYFILE/MEMBER1.RPGLE" = false)
    by reflexivity.
  split; [exact H1|].
  exact (proj1 (proj2 (proj2 (getUriFromPath_schemes "MYLIB/MYFILE/MEMBER1.RPGLE" None)))
           H1).
Defined.

(** The identifier of the sample member is a file. *)
Lemma getMemberUri_is_file_witness :
  scheme (getMemberUri member1 (Some (mkOptions true))) = "member"
  /\ fileTypeOf (path (getMemberUri member1 (Some (mkOptions true)))) = File.
Proof.
  assert (H1 : scheme (getMemberUri member1 (Some (mkOptions true))) = "member")
    by reflexivity.
  split; [exact H1|].
  exact (proj1 getMemberUri_is_file member1 (Some (mkOptions true)) H1).
Defined.

(** Anything below the sample member is a file too. *)
Lemma fileTypeOf_extends_witness :
  fileTypeOf memberPath = File
  /\ fileTypeOf (memberPath ++ "/COPY") = File.
Proof.
  assert (H1 : fileTypeOf memberPath = File) by reflexivity.
  split; [exact H1|].
  exact (proj1 (fileTypeOf_extends memberPath "/COPY" H1)).
Defined.

(** The filter [sources] is protected. *)
Lemma isProtectedFilter_first_match_witness :
  isProtectedFilter (Some filters) (Some "sources") = true.
Proof.
  apply (proj2 (isProtectedFilter_first_match (Some filters) (Some "sources"))).
  exists "sources", [], (mkObjectFilters "sources" true),
    [mkObjectFilters "objects" false; mkObjectFilters "objects" true].
  split; [reflexivity|]. split; [discriminate|]. split; [reflexivity|].
  split; [constructor|]. split; reflexivity.
Defined.

(** The first filter named [objects] is not protected; the second is not
    looked at. *)
Example isProtectedFilter_duplicate :
  isProtectedFilter (Some filters) (Some "objects") = false
  /\ isProtectedFilter (Some filters) (Some EmptyString) = false
  /\ isProtectedFilter None (Some "sources") = false.
Proof. repeat split. Qed.

(** A [stat] of a cached path while the gateway fails: nothing happens. *)
Lemma stat_touches_own_entry_witness :
  let cached := after (stat online memberUri new_QSysFS) in
  is_Some (statCache cached !! path memberUri)
  /\ after (stat flaky memberUri cached) = cached
  /\ effects (stat flaky memberUri cached) = [].
Proof.
  cbv zeta.
  assert (H1 : is_Some (statCache (after (stat online memberUri new_QSysFS))
                        !! path memberUri)) by (vm_compute; eauto).
  split; [exact H1|].
  exact (proj2 (proj2 (proj2 (proj2
           (stat_touches_own_entry flaky memberUri
              (after (stat online memberUri new_QSysFS)))))) H1).
Defined.

(** Metadata cached for the plain identifier is what a later [stat] of
    the read-only identifier returns, in read-only mode, with no
    permission flag. *)
Lemma stat_positive_cache_witness :
  let readonlyUri := getUriFromPath "MYLIB/MYFILE/MEMBER1.RPGLE" (Some (mkOptions true)) in
  let r := stat online memberUri new_QSysFS in
  statCache new_QSysFS !! path memberUri = None
  /\ getContent (instance online) = Some gateway
  /\ noneClears (path memberUri) [(offline, Stat fileUri)]
  /\ path readonlyUri = path memberUri
  /\ outcome (stat readOnlyWorld readonlyUri
                (performAll [(offline, Stat fileUri)] (after r)))
     = Returns {| ctime := 1700000000000%Z; mtime := 1700000360000%Z; size := 10%Z;
                  type := File; permissions := None |}.
Proof.
  cbv zeta.
  assert (H1 : statCache new_QSysFS !! path memberUri = None) by reflexivity.
  assert (H2 : getContent (instance online) = Some gateway) by reflexivity.
  assert (H3 : getAttributes gateway (parseQSysPath (path memberUri))
               = Returns (Some (mkAttributes "1700000000000" "1700000360000" "10")))
    by reflexivity.
  assert (H4 : noneClears (path memberUri) [(offline, Stat fileUri)]).
  { constructor; [reflexivity | constructor]. }
  assert (H5 : path (getUriFromPath "MYLIB/MYFILE/MEMBER1.RPGLE" (Some (mkOptions true)))
               = path memberUri) by reflexivity.
  destruct (stat_positive_cache online gateway memberUri new_QSysFS _ H1 H2 H3)
    as (_ & _ & Hlater).
  do 4 (split; [assumption|]).
  exact (proj1 (Hlater _ readOnlyWorld _ H4 H5)).
Defined.

(** A gateway that times out: [stat] throws and caches nothing. *)
Lemma stat_query_failure_witness :
  statCache new_QSysFS !! path memberUri = None
  /\ getContent (instance flaky) = Some failing
  /\ getAttributes failing (parseQSysPath (path memberUri)) = Throws timedOut
  /\ outcome (stat flaky memberUri new_QSysFS) = Throws timedOut
  /\ after (stat flaky memberUri new_QSysFS) = new_QSysFS.
Proof.
  assert (H1 : statCache new_QSysFS !! path memberUri = None) by reflexivity.
  assert (H2 : getContent (instance flaky) = Some failing) by reflexivity.
  assert (H3 : getAttributes failing (parseQSysPath (path memberUri)) = Throws timedOut)
    by reflexivity.
  destruct (stat_query_failure flaky failing memberUri new_QSysFS timedOut H1 H2 H3)
    as (Ho & Hs & _).
  do 3 (split; [assumption|]). split; [exact Ho | exact Hs].
Defined.

(** [delete] of the cached sample member, then a [stat] with a session. *)
Lemma delete_invalidates_witness :
  let cached := after (stat online memberUri new_QSysFS) in
  getContent (instance online) = Some gateway
  /\ is_Some (statCache cached !! path memberUri)
  /\ effects (stat online memberUri (after (delete memberUri false cached)))
     = [attributeQuery (path memberUri)].
Proof.
  cbv zeta.
  assert (H1 : getContent (instance online) = Some gateway) by reflexivity.
  split; [exact H1|]. split; [vm_compute; eauto|].
  exact (proj2 (proj2 (proj2 (proj2 (proj2 (proj2
           (delete_invalidates memberUri false
              (after (stat online memberUri new_QSysFS))))))))
           online gateway H1).
Defined.

(** Source dates enabled on a system with SQL and CCSID 65535. *)
Lemma updateMemberSupport_enables_witness :
  getConnection (instance onlineSql) = Some sqlConnection
  /\ config sqlConnection = Some configuration
  /\ enableSourceDates configuration = true
  /\ sqlRunnerAvailable sqlConnection = true
  /\ extendedMemberSupport (after (updateMemberSupport (instance onlineSql) new_QSysFS))
     = true
  /\ effects (updateMemberSupport (instance onlineSql) new_QSysFS)
     = [ShowWarningMessage ccsidWarning].
Proof.
  assert (H1 : getConnection (instance onlineSql) = Some sqlConnection) by reflexivity.
  assert (H2 : config sqlConnection = Some configuration) by reflexivity.
  assert (H3 : enableSourceDates configuration = true) by reflexivity.
  assert (H4 : sqlRunnerAvailable sqlConnection = true) by reflexivity.
  destruct (updateMemberSupport_enables (instance onlineSql) sqlConnection configuration
              new_QSysFS H1 H2 H3 H4) as (Hon & _ & Heff & _).
  do 4 (split; [assumption|]). split; [exact Hon | exact Heff].
Defined.

(** After a [stat] of the member and a [writeFile] of another path, the
    one bound path is the member's. *)
Lemma cached_paths_were_stated_witness :
  let calls := [(online, Stat memberUri);
                (online, WriteFile fileUri [] (mkWriteOptions true true))] in
  is_Some (statCache (performAll calls new_QSysFS) !! path memberUri)
  /\ In (path memberUri) (statPaths calls).
Proof.
  cbv zeta.
  assert (H1 : is_Some (statCache
                          (performAll [(online, Stat memberUri);
                                       (online, WriteFile fileUri []
                                                  (mkWriteOptions true true))]
                             new_QSysFS) !! path memberUri)) by (vm_compute; eauto).
  split; [exact H1|].
  exact (cached_paths_were_stated _ _ H1).
Defined.

(** The session is lost while the member's metadata is cached. *)
Lemma disconnected_resets_witness :
  let cached := after (stat online memberUri new_QSysFS) in
  let r := onEvent (instance offline) disconnected cached in
  getConnection (instance offline) = None
  /\ getContent (instance offline) = None
  /\ is_Some (statCache cached !! path memberUri)
  /\ extendedMemberSupport (after r) = false
  /\ outcome (stat offline memberUri (after r))
     = Returns (placeholder (instance offline) memberUri).
Proof.
  cbv zeta.
  assert (H1 : getConnection (instance offline) = None) by reflexivity.
  assert (H2 : getContent (instance offline) = None) by reflexivity.
  destruct (disconnected_resets (instance offline)
              (after (stat online memberUri new_QSysFS)))
    as (_ & _ & _ & Hgone & Hstat).
  do 2 (split; [assumption|]). split; [vm_compute; eauto|].
  split; [exact (proj1 (Hgone H1)) | exact (Hstat offline memberUri H2)].
Defined.

(** Reading the sample member in a session. *)
Lemma readFile_live_session_witness :
  getConnection (instance online) = Some connection
  /\ getContent (instance online) = Some gateway
  /\ (download online connection gateway memberUri (extendedMemberSupport new_QSysFS)).2
     = Returns (Some memberContent)
  /\ outcome (readFile staysOffline online memberUri false new_QSysFS)
     = Returns (list_byte_of_string memberContent).
Proof.
  assert (H1 : getConnection (instance online) = Some connection) by reflexivity.
  assert (H2 : getContent (instance online) = Some gateway) by reflexivity.
  assert (H3 : (download online connection gateway memberUri
                  (extendedMemberSupport new_QSysFS)).2
               = Returns (Some memberContent)) by reflexivity.
  destruct (readFile_live_session staysOffline online memberUri false new_QSysFS
              connection gateway H1 H2) as (_ & _ & _ & _ & Hret & _).
  do 3 (split; [assumption|]).
  exact (Hret memberContent H3).
Defined.

(** Writing while the gateway times out: the exception comes through. *)
Lemma writeFile_live_session_witness :
  getConnection (instance flaky) = Some connection
  /\ getContent (instance flaky) = Some failing
  /\ outcome (writeFile flaky memberUri [] (mkWriteOptions false true) new_QSysFS)
     = Throws timedOut.
Proof.
  assert (H1 : getConnection (instance flaky) = Some connection) by reflexivity.
  assert (H2 : getContent (instance flaky) = Some failing) by reflexivity.
  do 2 (split; [assumption|]).
  exact (proj1 (writeFile_live_session flaky memberUri [] (mkWriteOptions false true)
                  new_QSysFS connection failing H1 H2)).
Defined.

